(** * TeamViewer MCP server: tool dispatch and request translation

    A shallow embedding of [src/mcp_teamviewer/server.py].  The Python
    runtime pieces the server relies on (str, dict, [json.dumps], f-string
    formatting, the [httpx] client) are modelled first; the server's own
    functions ([get_token], [build_headers], [tv_get], [tv_post], [tv_put],
    [tv_delete], [ok], [TOOLS], [handle_call_tool]) follow, one definition
    per source function, and then the properties of the dispatcher. *)

From Stdlib Require Import List String Ascii ZArith NArith Bool Lia DecimalString.
Import ListNotations.

Set Implicit Arguments.
Set Warnings "-register-all".

(* ===================================================================== *)
(** ** Python strings

    A [str] is a sequence of Unicode code points.  Literals of the source
    that are plain ASCII are written with [str "..."]. *)
(* ===================================================================== *)

Definition pystr : Type := list N.

Definition str (s : string) : pystr :=
  map N_of_ascii (list_ascii_of_string s).

Fixpoint pystr_eqb (a b : pystr) : bool :=
  match a, b with
  | [], [] => true
  | x :: a', y :: b' => N.eqb x y && pystr_eqb a' b'
  | _, _ => false
  end.

Declare Scope py_scope.
Delimit Scope py_scope with py.
Infix "==" := pystr_eqb (at level 70, no associativity) : py_scope.
Open Scope string_scope.
Open Scope py_scope.
Open Scope list_scope.

(** [str(n)] for an [int]. *)
Definition int_str (n : Z) : pystr :=
  str (NilZero.string_of_int (Z.to_int n)).

(** Lower-case hexadecimal digits, as produced by the [x] format code. *)
Definition hex_digit (d : N) : N :=
  if (d <? 10)%N then (48 + d)%N else (87 + d)%N.

Definition hex2 (n : N) : pystr :=
  [hex_digit ((n / 16) mod 16); hex_digit (n mod 16)]%N.

Definition hex4 (n : N) : pystr :=
  [hex_digit ((n / 4096) mod 16); hex_digit ((n / 256) mod 16);
   hex_digit ((n / 16) mod 16); hex_digit (n mod 16)]%N.

Definition hex8 (n : N) : pystr :=
  hex4 (n / 65536)%N ++ hex4 (n mod 65536)%N.

(* ===================================================================== *)
(** ** JSON-shaped Python values

    The values that reach the server are those the protocol layer decodes
    from JSON and those [response.json()] returns: [None], [bool], [int],
    [str], [list] and [dict] with string keys.  A [dict] keeps insertion
    order, so it is an association list (keys pairwise distinct in every
    well-formed dict).  Floating-point numbers are outside this model. *)
(* ===================================================================== *)

Inductive value : Type :=
| VNone
| VBool (b : bool)
| VInt (n : Z)
| VStr (s : pystr)
| VList (xs : list value)
| VDict (items : list (pystr * value)).

Definition dict : Type := list (pystr * value).

(** Truth value of an object, as tested by [if x:] and by [x or y]. *)
Definition truthy (v : value) : bool :=
  match v with
  | VNone => false
  | VBool b => b
  | VInt n => negb (n =? 0)%Z
  | VStr [] => false
  | VStr (_ :: _) => true
  | VList [] => false
  | VList (_ :: _) => true
  | VDict [] => false
  | VDict (_ :: _) => true
  end.

(** [v is not None] *)
Definition is_not_None (v : value) : bool :=
  match v with VNone => false | _ => true end.

(** Key lookup: the first (and, in a well-formed dict, only) entry. *)
Fixpoint dict_lookup (d : dict) (k : pystr) : option value :=
  match d with
  | [] => None
  | (k', v) :: d' => if k' == k then Some v else dict_lookup d' k
  end.

(** [k in d] *)
Definition dict_contains (d : dict) (k : pystr) : bool :=
  match dict_lookup d k with Some _ => true | None => false end.

(** [d.get(k)]: [None] when the key is absent. *)
Definition dict_get (d : dict) (k : pystr) : value :=
  match dict_lookup d k with Some v => v | None => VNone end.

(** [d[k] = v]: overwrite in place, or append a new entry. *)
Fixpoint dict_set (d : dict) (k : pystr) (v : value) : dict :=
  match d with
  | [] => [(k, v)]
  | (k', v') :: d' =>
      if k' == k then (k', v) :: d' else (k', v') :: dict_set d' k v
  end.

(** The entries that remain after [del d[k]] / [d.pop(k)]. *)
Fixpoint dict_remove (d : dict) (k : pystr) : dict :=
  match d with
  | [] => []
  | (k', v') :: d' =>
      if k' == k then dict_remove d' k else (k', v') :: dict_remove d' k
  end.

(** [{k: v for k, v in d.items() if v is not None}] *)
Definition dict_not_None_items (d : dict) : dict :=
  fold_left
    (fun acc kv => if is_not_None (snd kv) then dict_set acc (fst kv) (snd kv)
                   else acc)
    d [].

(** [d or {}] for an optional dict: [None] and the empty dict both give a
    fresh empty dict. *)
Definition dict_or_empty (d : option dict) : dict :=
  match d with
  | Some (kv :: d') => kv :: d'
  | Some [] => []
  | None => []
  end.

(** [d or None] *)
Definition dict_or_None (d : dict) : option dict :=
  match d with
  | [] => None
  | _ :: _ => Some d
  end.

(* ===================================================================== *)
(** ** [json.dumps]

    The default encoder ([ensure_ascii=True], [sort_keys=False]).  With
    [indent=None] the separators are [", "] and [": "]; with an integer
    indent they are [","] and [": "], every item starts on a line of its
    own and empty containers stay [[]] and [{}]. *)
(* ===================================================================== *)

Module json.

(** One character of [py_encode_basestring_ascii]. *)
Definition escape_char (c : N) : pystr :=
  if (c =? 92)%N then [92; 92]%N
  else if (c =? 34)%N then [92; 34]%N
  else if (c =? 8)%N then str "\b"
  else if (c =? 12)%N then str "\f"
  else if (c =? 10)%N then str "\n"
  else if (c =? 13)%N then str "\r"
  else if (c =? 9)%N then str "\t"
  else if ((32 <=? c) && (c <=? 126))%N then [c]
  else if (c <? 65536)%N then str "\u" ++ hex4 c
  else
    let n := (c - 65536)%N in
    let s1 := N.lor 55296 (N.land (N.shiftr n 10) 1023) in
    let s2 := N.lor 56320 (N.land n 1023) in
    str "\u" ++ hex4 s1 ++ str "\u" ++ hex4 s2.

Definition encode_basestring_ascii (s : pystr) : pystr :=
  [34%N] ++ flat_map escape_char s ++ [34%N].

(** ['\n' + ' ' * (indent * level)], or nothing without an indent. *)
Definition newline_indent (indent : option nat) (level : nat) : pystr :=
  match indent with
  | None => []
  | Some k => 10%N :: repeat 32%N (k * level)
  end.

Definition item_separator (indent : option nat) : pystr :=
  match indent with
  | None => str ", "
  | Some _ => str ","
  end.

Definition key_separator : pystr := str ": ".

Fixpoint iterencode (indent : option nat) (level : nat) (o : value)
  {struct o} : pystr :=
  match o with
  | VNone => str "null"
  | VBool true => str "true"
  | VBool false => str "false"
  | VInt n => int_str n
  | VStr s => encode_basestring_ascii s
  | VList [] => str "[]"
  | VList (x :: xs) =>
      let nl := newline_indent indent (S level) in
      str "[" ++ nl ++ iterencode indent (S level) x
      ++ (fix rest (l : list value) : pystr :=
            match l with
            | [] => []
            | y :: ys =>
                item_separator indent ++ nl
                ++ iterencode indent (S level) y ++ rest ys
            end) xs
      ++ newline_indent indent level ++ str "]"
  | VDict [] => str "{}"
  | VDict ((k, x) :: kvs) =>
      let nl := newline_indent indent (S level) in
      str "{" ++ nl
      ++ encode_basestring_ascii k ++ key_separator
      ++ iterencode indent (S level) x
      ++ (fix rest (l : list (pystr * value)) : pystr :=
            match l with
            | [] => []
            | (k', y) :: ys =>
                item_separator indent ++ nl
                ++ encode_basestring_ascii k' ++ key_separator
                ++ iterencode indent (S level) y ++ rest ys
            end) kvs
      ++ newline_indent indent level ++ str "}"
  end.

(** [json.dumps(obj, indent=indent)] *)
Definition dumps (obj : value) (indent : option nat) : pystr :=
  iterencode indent 0 obj.

End json.

(* ===================================================================== *)
(** ** [repr], [str] and f-string formatting of values

    [repr] of a [str] consults the interpreter's Unicode database for the
    code points above ASCII ([str.isprintable]); that table is the
    parameter [isprintable]. *)
(* ===================================================================== *)

Module builtins.

Definition repr_char (isprintable : N -> bool) (quote c : N) : pystr :=
  if ((c =? quote) || (c =? 92))%N then [92%N; c]
  else if (c =? 9)%N then str "\t"
  else if (c =? 10)%N then str "\n"
  else if (c =? 13)%N then str "\r"
  else if ((c <? 32) || (c =? 127))%N then str "\x" ++ hex2 c
  else if (c <? 127)%N then [c]
  else if isprintable c then [c]
  else if (c <=? 255)%N then str "\x" ++ hex2 c
  else if (c <=? 65535)%N then str "\u" ++ hex4 c
  else str "\U" ++ hex8 c.

(** Single quotes, unless the string has a single quote and no double
    quote. *)
Definition repr_str (isprintable : N -> bool) (s : pystr) : pystr :=
  let quote :=
    if existsb (N.eqb 39) s && negb (existsb (N.eqb 34) s)
    then 34%N else 39%N in
  [quote] ++ flat_map (repr_char isprintable quote) s ++ [quote].

Fixpoint repr (isprintable : N -> bool) (o : value) {struct o} : pystr :=
  match o with
  | VNone => str "None"
  | VBool true => str "True"
  | VBool false => str "False"
  | VInt n => int_str n
  | VStr s => repr_str isprintable s
  | VList [] => str "[]"
  | VList (x :: xs) =>
      str "[" ++ repr isprintable x
      ++ (fix rest (l : list value) : pystr :=
            match l with
            | [] => []
            | y :: ys => str ", " ++ repr isprintable y ++ rest ys
            end) xs
      ++ str "]"
  | VDict [] => str "{}"
  | VDict ((k, x) :: kvs) =>
      str "{" ++ repr_str isprintable k ++ str ": " ++ repr isprintable x
      ++ (fix rest (l : list (pystr * value)) : pystr :=
            match l with
            | [] => []
            | (k', y) :: ys =>
                str ", " ++ repr_str isprintable k' ++ str ": "
                ++ repr isprintable y ++ rest ys
            end) kvs
      ++ str "}"
  end.

(** [str(o)], which is also what [f"{o}"] inserts. *)
Definition format (isprintable : N -> bool) (o : value) : pystr :=
  match o with
  | VStr s => s
  | _ => repr isprintable o
  end.

End builtins.

(* ===================================================================== *)
(** ** The [httpx] client, as the server sees it

    A request is the call made on the client ([client.get(url, headers=...,
    params=..., timeout=...)] and its siblings).  A response is observed
    through [status_code], [text] and [json()]; the outcome of [json()] is
    part of the response: the decoded value, or the message of the
    [json.JSONDecodeError] it raises. *)
(* ===================================================================== *)

Module httpx.

Inductive Method : Type := GET | POST | PUT | DELETE.

Inductive JsonResult : Type :=
| Decoded (v : value)
| Undecodable (msg : pystr).

Record Response : Type := mkResponse {
  status_code : Z;
  text : pystr;
  json_result : JsonResult
}.

Record Request : Type := mkRequest {
  method : Method;
  url : pystr;
  headers : list (pystr * pystr);
  params : option dict;
  json_payload : option dict;
  timeout : Z
}.

(** What the network does with a request: a response comes back, or the
    call fails (time-out, connection failure: [httpx.RequestError]). *)
Inductive Outcome : Type :=
| Responded (r : Response)
| Failed.

(** [response.is_success] *)
Definition is_success (r : Response) : bool :=
  ((200 <=? status_code r) && (status_code r <=? 299))%Z.

End httpx.

Module types.

(** [mcp.types.TextContent] *)
Record TextContent : Type := mkTextContent {
  type : pystr;
  text : pystr
}.

(** The [inputSchema] of a tool: each property with its JSON type, and
    the names listed under ["required"].  Property descriptions, enums and
    defaults are not consulted by the server and are left out. *)
Record Schema : Type := mkSchema {
  properties : list (pystr * pystr);
  required : list pystr
}.

(** [mcp.types.Tool] *)
Record Tool : Type := mkTool {
  name : pystr;
  description : pystr;
  inputSchema : Schema
}.

End types.

(* ===================================================================== *)
(** ** Exceptions and effects

    The exceptions that can occur in the handler.  [JSONDecodeError] is a
    subclass of [ValueError]; [HTTPStatusError] carries the response;
    [RequestError] stands for every failure of the client call itself. *)
(* ===================================================================== *)

Inductive Exn : Type :=
| KeyError (key : pystr)
| ValueError (msg : pystr)
| JSONDecodeError (msg : pystr)
| HTTPStatusError (response : httpx.Response)
| RequestError.

(** [isinstance(exc, ValueError)] *)
Definition is_ValueError (e : Exn) : bool :=
  match e with
  | ValueError _ | JSONDecodeError _ => true
  | _ => false
  end.

(** [str(exc)] *)
Definition exn_message (e : Exn) : pystr :=
  match e with
  | ValueError msg | JSONDecodeError msg => msg
  | KeyError k => k
  | HTTPStatusError _ | RequestError => []
  end.

(** The surroundings of one invocation: the process environment and the
    behaviour of the network. *)
Record World : Type := mkWorld {
  environ : list (pystr * pystr);
  network : httpx.Request -> httpx.Outcome
}.

(** A computation reads the world, appends the requests it makes to the
    log, and returns a value or raises. *)
Definition IO (A : Type) : Type :=
  World -> list httpx.Request -> (Exn + A) * list httpx.Request.

Definition ret {A} (a : A) : IO A := fun _ log => (inr a, log).

Definition raise {A} (e : Exn) : IO A := fun _ log => (inl e, log).

Definition bind {A B} (m : IO A) (k : A -> IO B) : IO B :=
  fun w log =>
    match m w log with
    | (inl e, log') => (inl e, log')
    | (inr a, log') => k a w log'
    end.

Notation "x <- m ;; k" := (bind m (fun x => k))
  (at level 61, m at next level, right associativity) : py_scope.
Notation "' p <- m ;; k" := (bind m (fun x => let p := x in k))
  (at level 61, p pattern, m at next level, right associativity) : py_scope.

(** [try: body  except ...: handler], the handler re-raising what it does
    not catch. *)
Definition try_except {A} (body : IO A) (handler : Exn -> IO A) : IO A :=
  fun w log =>
    match body w log with
    | (inl e, log') => handler e w log'
    | (inr a, log') => (inr a, log')
    end.

(** A loop [for x in xs: ...] over a state threaded through the body. *)
Fixpoint for_each {X S} (xs : list X) (body : X -> S -> IO S) (s : S)
  : IO S :=
  match xs with
  | [] => ret s
  | x :: xs' => s' <- body x s ;; for_each xs' body s'
  end.

(** [os.environ.get(key, default)] *)
Definition environ_get (key default : pystr) : IO pystr :=
  fun w log =>
    (inr (match find (fun kv => fst kv == key) (environ w) with
          | Some kv => snd kv
          | None => default
          end), log).

(** [d[k]] *)
Definition getitem (d : dict) (k : pystr) : IO value :=
  match dict_lookup d k with
  | Some v => ret v
  | None => raise (KeyError k)
  end.

(** [d.pop(k)]: the value, and the dict as it is afterwards. *)
Definition dict_pop (d : dict) (k : pystr) : IO (value * dict) :=
  match dict_lookup d k with
  | Some v => ret (v, dict_remove d k)
  | None => raise (KeyError k)
  end.

(** [await client.<method>(url, headers=..., ...)] *)
Definition client_request (req : httpx.Request) : IO httpx.Response :=
  fun w log =>
    match network w req with
    | httpx.Responded r => (inr r, log ++ [req])
    | httpx.Failed => (inl RequestError, log ++ [req])
    end.

(** [response.raise_for_status()] *)
Definition raise_for_status (r : httpx.Response) : IO unit :=
  if httpx.is_success r then ret tt else raise (HTTPStatusError r).

(** [response.json()] *)
Definition response_json (r : httpx.Response) : IO value :=
  match httpx.json_result r with
  | httpx.Decoded v => ret v
  | httpx.Undecodable msg => raise (JSONDecodeError msg)
  end.

(* ===================================================================== *)
(** ** The server: transport client *)
(* ===================================================================== *)

Definition BASE_URL : pystr := str "https://webapi.teamviewer.com/api/v1".

Definition get_token : IO pystr :=
  token <- environ_get (str "TEAMVIEWER_API_TOKEN") (str "") ;;
  match token with
  | [] =>
      raise (ValueError
               (str "TEAMVIEWER_API_TOKEN environment variable is not set. "
                ++ str "Create a Script Token in TeamViewer Management Console under "
                ++ str "Edit Profile " ++ [8594%N] ++ str " Apps " ++ [8594%N]
                ++ str " Create Script Token."))
  | _ :: _ => ret token
  end.

Definition build_headers : IO (list (pystr * pystr)) :=
  token <- get_token ;;
  ret [(str "Authorization", str "Bearer " ++ token);
       (str "Content-Type", str "application/json")].

Definition tv_get (path : pystr) (params : option dict) : IO value :=
  headers <- build_headers ;;
  response <- client_request
                (httpx.mkRequest httpx.GET (BASE_URL ++ path) headers
                                 params None 30) ;;
  _ <- raise_for_status response ;;
  response_json response.

Definition tv_post (path : pystr) (body : option dict) : IO value :=
  headers <- build_headers ;;
  response <- client_request
                (httpx.mkRequest httpx.POST (BASE_URL ++ path) headers
                                 None (Some (dict_or_empty body)) 30) ;;
  _ <- raise_for_status response ;;
  response_json response.

Definition tv_put (path : pystr) (body : option dict) : IO value :=
  headers <- build_headers ;;
  response <- client_request
                (httpx.mkRequest httpx.PUT (BASE_URL ++ path) headers
                                 None (Some (dict_or_empty body)) 30) ;;
  _ <- raise_for_status response ;;
  response_json response.

Definition tv_delete (path : pystr) : IO value :=
  headers <- build_headers ;;
  response <- client_request
                (httpx.mkRequest httpx.DELETE (BASE_URL ++ path) headers
                                 None None 30) ;;
  _ <- raise_for_status response ;;
  if (httpx.status_code response =? 204)%Z
  then ret (VDict [(str "success", VBool true)])
  else response_json response.

Definition ok (data : value) : list types.TextContent :=
  [types.mkTextContent (str "text") (json.dumps data (Some 2%nat))].

(* ===================================================================== *)
(** ** The server: tool definitions *)
(* ===================================================================== *)

Definition tool (name description : string)
  (properties : list (string * string)) (required : list string)
  : types.Tool :=
  types.mkTool (str name) (str description)
    (types.mkSchema
       (map (fun p => (str (fst p), str (snd p))) properties)
       (map str required)).

Definition TOOLS : list types.Tool :=
  [
    tool "get_account"
      "Get the current TeamViewer account information (email, name, company, etc.)."
      []
      [];
    tool "update_account"
      "Update the current TeamViewer account's profile information."
      [("email", "string"); ("name", "string"); ("company", "string"); ("password", "string"); ("old_password", "string")]
      [];
    tool "list_devices"
      "List all devices (Computers & Contacts) in the account. Optionally filter by group ID, online status, or name."
      [("groupid", "string"); ("online_state", "string"); ("full_list", "boolean")]
      [];
    tool "get_device"
      "Get details of a specific device by its device ID."
      [("device_id", "string")]
      ["device_id"];
    tool "update_device"
      "Update a device's alias, description, password, or group assignment."
      [("device_id", "string"); ("alias", "string"); ("description", "string"); ("password", "string"); ("groupid", "string")]
      ["device_id"];
    tool "delete_device"
      "Remove a device from the Computers & Contacts list."
      [("device_id", "string")]
      ["device_id"];
    tool "list_groups"
      "List all groups in the account. Optionally filter by name."
      [("name", "string")]
      [];
    tool "create_group"
      "Create a new group in Computers & Contacts."
      [("name", "string"); ("policy_id", "string")]
      ["name"];
    tool "update_group"
      "Rename a group or change its assigned policy."
      [("group_id", "string"); ("name", "string"); ("policy_id", "string")]
      ["group_id"];
    tool "delete_group"
      "Delete a group from Computers & Contacts."
      [("group_id", "string")]
      ["group_id"];
    tool "share_group"
      "Share a group with other TeamViewer users."
      [("group_id", "string"); ("users", "array")]
      ["group_id"; "users"];
    tool "list_users"
      "List all users in the TeamViewer Management Console company account."
      [("name", "string"); ("email", "string"); ("permissions", "string"); ("full_list", "boolean")]
      [];
    tool "create_user"
      "Create a new user in the TeamViewer Management Console."
      [("email", "string"); ("name", "string"); ("password", "string"); ("permissions", "string"); ("language", "string")]
      ["email"; "name"; "password"];
    tool "get_user"
      "Get details of a specific user by user ID."
      [("user_id", "string")]
      ["user_id"];
    tool "update_user"
      "Update a user's profile or permissions."
      [("user_id", "string"); ("email", "string"); ("name", "string"); ("permissions", "string"); ("active", "boolean")]
      ["user_id"];
    tool "list_sessions"
      "List support sessions (service queue) optionally filtered by group or state."
      [("groupid", "string"); ("state", "string")]
      [];
    tool "create_session"
      "Create a new support session (service case)."
      [("groupid", "string"); ("description", "string"); ("custom_internal_id", "string")]
      ["groupid"];
    tool "get_session"
      "Get details of a specific support session by session code."
      [("session_code", "string")]
      ["session_code"];
    tool "update_session"
      "Update a support session's description or custom internal ID."
      [("session_code", "string"); ("description", "string"); ("custom_internal_id", "string")]
      ["session_code"];
    tool "close_session"
      "Close an open support session."
      [("session_code", "string")]
      ["session_code"];
    tool "get_connection_reports"
      "Retrieve connection reports. Filter by date range, device ID, user, or session. Returns details about all remote connections made."
      [("from_date", "string"); ("to_date", "string"); ("device_id", "string"); ("user_id", "string"); ("session_code", "string"); ("limit", "integer"); ("offset", "integer")]
      [];
    tool "list_meetings"
      "List all scheduled meetings in the account."
      []
      [];
    tool "create_meeting"
      "Schedule a new TeamViewer meeting."
      [("subject", "string"); ("start", "string"); ("end", "string"); ("password", "string")]
      ["subject"; "start"; "end"];
    tool "get_meeting"
      "Get details of a specific meeting by meeting ID."
      [("meeting_id", "string")]
      ["meeting_id"];
    tool "update_meeting"
      "Update an existing meeting's subject, time, or password."
      [("meeting_id", "string"); ("subject", "string"); ("start", "string"); ("end", "string"); ("password", "string")]
      ["meeting_id"];
    tool "delete_meeting"
      "Delete a scheduled meeting."
      [("meeting_id", "string")]
      ["meeting_id"];
    tool "list_policies"
      "List all TeamViewer policies defined in the Management Console."
      []
      [];
    tool "get_policy"
      "Get details of a specific policy by policy ID."
      [("policy_id", "string")]
      ["policy_id"];
    tool "ping"
      "Verify the API token is valid and the TeamViewer API is reachable."
      []
      []
  ].

Definition handle_list_tools : IO (list types.Tool) := ret TOOLS.

(* ===================================================================== *)
(** ** The server: the dispatcher *)
(* ===================================================================== *)

(** [if args.get(field): params[field] = args[field]] *)
Definition copy_if_truthy (args : dict) (field : pystr) (params : dict)
  : IO dict :=
  if truthy (dict_get args field)
  then v <- getitem args field ;; ret (dict_set params field v)
  else ret params.

(** [if args.get("full_list"): params["full_list"] = "true"] *)
Definition flag_if_truthy (args : dict) (field : pystr) (params : dict)
  : IO dict :=
  if truthy (dict_get args field)
  then ret (dict_set params field (VStr (str "true")))
  else ret params.

(** The table of [get_connection_reports]. *)
Definition field_map : list (pystr * pystr) :=
  [(str "from_date", str "from");
   (str "to_date", str "to");
   (str "device_id", str "deviceid");
   (str "user_id", str "userid");
   (str "session_code", str "sessioncode");
   (str "limit", str "limit");
   (str "offset", str "offset")].

(** [if args.get(arg_key) is not None: params[param_key] = args[arg_key]] *)
Definition copy_renamed (args : dict) (entry : pystr * pystr) (params : dict)
  : IO dict :=
  let (arg_key, param_key) := entry in
  if is_not_None (dict_get args arg_key)
  then v <- getitem args arg_key ;; ret (dict_set params param_key v)
  else ret params.

Section Server.

(** [str.isprintable] on the code points above ASCII. *)
Variable isprintable : N -> bool.

(** [f"{v}"] *)
Definition fstr (v : value) : pystr := builtins.format isprintable v.

(** The body of the [try] block of [handle_call_tool].  [args.pop(key)]
    is followed only by reads of [args], so the dict after the pop is
    passed on under the same name. *)
Definition call_tool (name : pystr) (args : dict)
  : IO (list types.TextContent) :=
  if name == str "ping" then
    data <- tv_get (str "/ping") None ;;
    ret (ok data)

  else if name == str "get_account" then
    data <- tv_get (str "/account") None ;;
    ret (ok data)

  else if name == str "update_account" then
    let payload := dict_not_None_items args in
    data <- tv_put (str "/account") (Some payload) ;;
    ret (ok data)

  else if name == str "list_devices" then
    params <- copy_if_truthy args (str "groupid") [] ;;
    params <- copy_if_truthy args (str "online_state") params ;;
    params <- flag_if_truthy args (str "full_list") params ;;
    data <- tv_get (str "/devices") (dict_or_None params) ;;
    ret (ok data)

  else if name == str "get_device" then
    device_id <- getitem args (str "device_id") ;;
    data <- tv_get (str "/devices/" ++ fstr device_id) None ;;
    ret (ok data)

  else if name == str "update_device" then
    popped <- dict_pop args (str "device_id") ;;
    let (device_id, args) := popped in
    let payload := dict_not_None_items args in
    data <- tv_put (str "/devices/" ++ fstr device_id) (Some payload) ;;
    ret (ok data)

  else if name == str "delete_device" then
    device_id <- getitem args (str "device_id") ;;
    data <- tv_delete (str "/devices/" ++ fstr device_id) ;;
    ret (ok data)

  else if name == str "list_groups" then
    params <- copy_if_truthy args (str "name") [] ;;
    data <- tv_get (str "/groups") (dict_or_None params) ;;
    ret (ok data)

  else if name == str "create_group" then
    name_ <- getitem args (str "name") ;;
    let payload := [(str "name", name_)] in
    payload <- copy_if_truthy args (str "policy_id") payload ;;
    data <- tv_post (str "/groups") (Some payload) ;;
    ret (ok data)

  else if name == str "update_group" then
    popped <- dict_pop args (str "group_id") ;;
    let (group_id, args) := popped in
    let payload := dict_not_None_items args in
    data <- tv_put (str "/groups/" ++ fstr group_id) (Some payload) ;;
    ret (ok data)

  else if name == str "delete_group" then
    group_id <- getitem args (str "group_id") ;;
    data <- tv_delete (str "/groups/" ++ fstr group_id) ;;
    ret (ok data)

  else if name == str "share_group" then
    group_id <- getitem args (str "group_id") ;;
    users <- getitem args (str "users") ;;
    let payload := [(str "users", users)] in
    data <- tv_post (str "/groups/" ++ fstr group_id ++ str "/share_group")
                    (Some payload) ;;
    ret (ok data)

  else if name == str "list_users" then
    params <- for_each [str "name"; str "email"; str "permissions"]
                       (copy_if_truthy args) [] ;;
    params <- flag_if_truthy args (str "full_list") params ;;
    data <- tv_get (str "/users") (dict_or_None params) ;;
    ret (ok data)

  else if name == str "create_user" then
    let payload := dict_not_None_items args in
    data <- tv_post (str "/users") (Some payload) ;;
    ret (ok data)

  else if name == str "get_user" then
    user_id <- getitem args (str "user_id") ;;
    data <- tv_get (str "/users/" ++ fstr user_id) None ;;
    ret (ok data)

  else if name == str "update_user" then
    popped <- dict_pop args (str "user_id") ;;
    let (user_id, args) := popped in
    let payload := dict_not_None_items args in
    data <- tv_put (str "/users/" ++ fstr user_id) (Some payload) ;;
    ret (ok data)

  else if name == str "list_sessions" then
    params <- copy_if_truthy args (str "groupid") [] ;;
    params <- copy_if_truthy args (str "state") params ;;
    data <- tv_get (str "/sessions") (dict_or_None params) ;;
    ret (ok data)

  else if name == str "create_session" then
    let payload := dict_not_None_items args in
    data <- tv_post (str "/sessions") (Some payload) ;;
    ret (ok data)

  else if name == str "get_session" then
    session_code <- getitem args (str "session_code") ;;
    data <- tv_get (str "/sessions/" ++ fstr session_code) None ;;
    ret (ok data)

  else if name == str "update_session" then
    popped <- dict_pop args (str "session_code") ;;
    let (session_code, args) := popped in
    let payload := dict_not_None_items args in
    data <- tv_put (str "/sessions/" ++ fstr session_code) (Some payload) ;;
    ret (ok data)

  else if name == str "close_session" then
    session_code <- getitem args (str "session_code") ;;
    data <- tv_put (str "/sessions/" ++ fstr session_code)
                   (Some [(str "state", VStr (str "closed"))]) ;;
    ret (ok data)

  else if name == str "get_connection_reports" then
    params <- for_each field_map (copy_renamed args) [] ;;
    data <- tv_get (str "/reports/connections") (dict_or_None params) ;;
    ret (ok data)

  else if name == str "list_meetings" then
    data <- tv_get (str "/meetings") None ;;
    ret (ok data)

  else if name == str "create_meeting" then
    let payload := dict_not_None_items args in
    data <- tv_post (str "/meetings") (Some payload) ;;
    ret (ok data)

  else if name == str "get_meeting" then
    meeting_id <- getitem args (str "meeting_id") ;;
    data <- tv_get (str "/meetings/" ++ fstr meeting_id) None ;;
    ret (ok data)

  else if name == str "update_meeting" then
    popped <- dict_pop args (str "meeting_id") ;;
    let (meeting_id, args) := popped in
    let payload := dict_not_None_items args in
    data <- tv_put (str "/meetings/" ++ fstr meeting_id) (Some payload) ;;
    ret (ok data)

  else if name == str "delete_meeting" then
    meeting_id <- getitem args (str "meeting_id") ;;
    data <- tv_delete (str "/meetings/" ++ fstr meeting_id) ;;
    ret (ok data)

  else if name == str "list_policies" then
    data <- tv_get (str "/teamviewerpolicies") None ;;
    ret (ok data)

  else if name == str "get_policy" then
    policy_id <- getitem args (str "policy_id") ;;
    data <- tv_get (str "/teamviewerpolicies/" ++ fstr policy_id) None ;;
    ret (ok data)

  else
    ret [types.mkTextContent (str "text")
           (json.dumps (VDict [(str "error",
                                VStr (str "Unknown tool: " ++ name))])
                       None)].

(** The two [except] clauses; anything else propagates. *)
Definition on_exception (exc : Exn) : IO (list types.TextContent) :=
  match exc with
  | HTTPStatusError response =>
      let error_body := httpx.text response in
      ret [types.mkTextContent (str "text")
             (json.dumps
                (VDict [(str "error",
                         VStr (str "TeamViewer API error "
                               ++ int_str (httpx.status_code response)));
                        (str "detail", VStr error_body)])
                (Some 2%nat))]
  | ValueError _ | JSONDecodeError _ =>
      ret [types.mkTextContent (str "text")
             (json.dumps (VDict [(str "error", VStr (exn_message exc))])
                         (Some 2%nat))]
  | KeyError _ | RequestError => raise exc
  end.

Definition handle_call_tool (name : pystr) (arguments : option dict)
  : IO (list types.TextContent) :=
  let args := dict_or_empty arguments in
  try_except (call_tool name args) on_exception.

End Server.


(* ===================================================================== *)
(** * Notions used to state the properties

    None of these is called by the server; they name what the statements
    below talk about, and each is related to the code by a lemma. *)
(* ===================================================================== *)

(** The keys of an optional dict ([None]: no keys at all). *)
Definition has_key (d : option dict) (k : pystr) : bool :=
  match d with
  | Some d => dict_contains d k
  | None => false
  end.

Definition mem (k : pystr) (l : list pystr) : bool := existsb (pystr_eqb k) l.

(** The value of an environment variable, when it is set. *)
Definition getenv (w : World) (key : pystr) : option pystr :=
  match find (fun kv => fst kv == key) (environ w) with
  | Some kv => Some (snd kv)
  | None => None
  end.

(** The bearer token, when the environment variable is set and not
    empty. *)
Definition credential (w : World) : option pystr :=
  match getenv w (str "TEAMVIEWER_API_TOKEN") with
  | Some (c :: token) => Some (c :: token)
  | Some [] => None
  | None => None
  end.

Definition missing_token_message : pystr :=
  str "TEAMVIEWER_API_TOKEN environment variable is not set. Create a Script Token in TeamViewer Management Console under Edit Profile "
  ++ [8594%N] ++ str " Apps " ++ [8594%N] ++ str " Create Script Token.".

Definition auth_headers (token : pystr) : list (pystr * pystr) :=
  [(str "Authorization", str "Bearer " ++ token);
   (str "Content-Type", str "application/json")].

(** One call on the transport client. *)
Inductive Call : Type :=
| Get (path : pystr) (params : option dict)
| Post (path : pystr) (body : option dict)
| Put (path : pystr) (body : option dict)
| Delete (path : pystr).

Definition perform (c : Call) : IO value :=
  match c with
  | Get path params => tv_get path params
  | Post path body => tv_post path body
  | Put path body => tv_put path body
  | Delete path => tv_delete path
  end.

Definition call_method (c : Call) : httpx.Method :=
  match c with
  | Get _ _ => httpx.GET
  | Post _ _ => httpx.POST
  | Put _ _ => httpx.PUT
  | Delete _ => httpx.DELETE
  end.

Definition call_path (c : Call) : pystr :=
  match c with
  | Get path _ | Post path _ | Put path _ | Delete path => path
  end.

Definition call_params (c : Call) : option dict :=
  match c with
  | Get _ params => params
  | _ => None
  end.

Definition call_json (c : Call) : option dict :=
  match c with
  | Post _ body | Put _ body => Some (dict_or_empty body)
  | _ => None
  end.

(** The request a call makes. *)
Definition request_of (token : pystr) (c : Call) : httpx.Request :=
  httpx.mkRequest (call_method c) (BASE_URL ++ call_path c)
                  (auth_headers token) (call_params c) (call_json c) 30.

Definition decoded (r : httpx.Response) : Exn + value :=
  match httpx.json_result r with
  | httpx.Decoded v => inr v
  | httpx.Undecodable msg => inl (JSONDecodeError msg)
  end.

(** What a call makes of the response it receives. *)
Definition received (c : Call) (r : httpx.Response) : Exn + value :=
  if httpx.is_success r then
    match c with
    | Delete _ =>
        if (httpx.status_code r =? 204)%Z
        then inr (VDict [(str "success", VBool true)])
        else decoded r
    | _ => decoded r
    end
  else inl (HTTPStatusError r).

(** One transport call, its result wrapped by [ok]. *)
Definition invoke (c : Call) : IO (list types.TextContent) :=
  data <- perform c ;; ret (ok data).

(** The one-element result list around a JSON text. *)
Definition envelope (obj : value) (indent : option nat)
  : list types.TextContent :=
  [types.mkTextContent (str "text") (json.dumps obj indent)].

Definition error_object (msg : pystr) : value :=
  VDict [(str "error", VStr msg)].

Definition upstream_error_object (r : httpx.Response) : value :=
  VDict [(str "error",
          VStr (str "TeamViewer API error " ++ int_str (httpx.status_code r)));
         (str "detail", VStr (httpx.text r))].

Definition unknown_tool_object (name : pystr) : value :=
  error_object (str "Unknown tool: " ++ name).

(** What the two [except] clauses make of an exception. *)
Definition caught (e : Exn) : Exn + list types.TextContent :=
  match e with
  | HTTPStatusError r => inr (envelope (upstream_error_object r) (Some 2%nat))
  | ValueError msg | JSONDecodeError msg =>
      inr (envelope (error_object msg) (Some 2%nat))
  | KeyError _ | RequestError => inl e
  end.

(** The dict the guarded copies leave behind. *)
Definition copied_if_truthy (args : dict) (field : pystr) (params : dict)
  : dict :=
  if truthy (dict_get args field)
  then dict_set params field (dict_get args field)
  else params.

Definition flagged_if_truthy (args : dict) (field : pystr) (params : dict)
  : dict :=
  if truthy (dict_get args field)
  then dict_set params field (VStr (str "true"))
  else params.

Definition renamed_copy (args : dict) (entry : pystr * pystr) (params : dict)
  : dict :=
  if is_not_None (dict_get args (fst entry))
  then dict_set params (snd entry) (dict_get args (fst entry))
  else params.

(** The query [get_connection_reports] builds from its arguments. *)
Definition reports_query (args : dict) : dict :=
  fold_left (fun s x => renamed_copy args x s) field_map [].

(** The names of the catalog, and the required arguments of a name. *)
Definition catalog : list pystr := map types.name TOOLS.

Definition find_tool (name : pystr) : option types.Tool :=
  find (fun t => types.name t == name) TOOLS.

Definition required_of (name : pystr) : list pystr :=
  match find_tool name with
  | Some t => types.required (types.inputSchema t)
  | None => []
  end.

(** An optional argument of a tool: a declared property that is not
    required. *)
Definition optional_argument (t : types.Tool) (p : pystr) : Prop :=
  In p (map fst (types.properties (types.inputSchema t)))
  /\ ~ In p (types.required (types.inputSchema t)).

Definition keys_within (args d : dict) : Prop :=
  forall k, dict_contains d k = true -> dict_contains args k = true.

(** Where the keys of an outbound request come from: a key of the JSON
    body is a key of the arguments (or the fixed [state] of
    [close_session]); a query key is a key of the arguments, or, for
    [get_connection_reports], the translation of one. *)
Definition provenance (name : pystr) (args : dict) (c : Call) : Prop :=
  (forall k, has_key (call_json c) k = true ->
     dict_contains args k = true
     \/ (name = str "close_session" /\ k = str "state"))
  /\
  (forall k, has_key (call_params c) k = true ->
     (name <> str "get_connection_reports" /\ dict_contains args k = true)
     \/ (name = str "get_connection_reports"
         /\ exists a, In (a, k) field_map /\ dict_contains args a = true)).

(** The three things the [try] block can amount to. *)
Inductive shaped (name : pystr) (args : dict)
  : IO (list types.TextContent) -> Prop :=
| shaped_missing (k : pystr) :
    mem k (required_of name) = true ->
    dict_lookup args k = None ->
    shaped name args (raise (KeyError k))
| shaped_call (c : Call) :
    mem name catalog = true ->
    provenance name args c ->
    shaped name args (invoke c)
| shaped_unknown :
    mem name catalog = false ->
    shaped name args (ret (envelope (unknown_tool_object name) None)).

(** ** Sample surroundings *)

(** [str.isprintable] restricted to the Latin-1 range, which is all the
    sample inputs below use. *)
Definition latin1_isprintable (c : N) : bool :=
  ((161 <=? c) && (c <=? 255) && negb (c =? 173))%N.

(** A configured token, and a network that answers every request with
    the same response. *)
Definition answering (r : httpx.Response) : World :=
  mkWorld [(str "TEAMVIEWER_API_TOKEN", str "secret")]
          (fun _ => httpx.Responded r).

(** No token in the environment. *)
Definition unconfigured : World :=
  mkWorld [] (fun _ => httpx.Failed).

(** 200 with a JSON object. *)
Definition response_200 : httpx.Response :=
  httpx.mkResponse 200 [123; 125]%N (httpx.Decoded (VDict [])).

(** 200 with a body that is not JSON; [json()] raises. *)
Definition response_200_garbled : httpx.Response :=
  httpx.mkResponse 200 (str "<html>")
    (httpx.Undecodable (str "Expecting value: line 1 column 1 (char 0)")).

(** 204 No Content: the body is empty, so [json()] raises. *)
Definition response_204 : httpx.Response :=
  httpx.mkResponse 204 []
    (httpx.Undecodable (str "Expecting value: line 1 column 1 (char 0)")).

(** ** The routes of the dispatcher, as tables

    Each table lists the branches of [handle_call_tool] that share one
    shaping rule; the theorems on them check every listed branch. *)

(** Tools that take no argument: name and path of the GET. *)
Definition plain_tools : list (pystr * pystr) :=
  [(str "ping", str "/ping");
   (str "get_account", str "/account");
   (str "list_meetings", str "/meetings");
   (str "list_policies", str "/teamviewerpolicies")].

(** Tools that read or delete one entity: name, identifier argument, verb
    and the path in front of the identifier. *)
Definition entity_tools : list (pystr * pystr * httpx.Method * pystr) :=
  [(str "get_device", str "device_id", httpx.GET, str "/devices/");
   (str "delete_device", str "device_id", httpx.DELETE, str "/devices/");
   (str "delete_group", str "group_id", httpx.DELETE, str "/groups/");
   (str "get_user", str "user_id", httpx.GET, str "/users/");
   (str "get_session", str "session_code", httpx.GET, str "/sessions/");
   (str "get_meeting", str "meeting_id", httpx.GET, str "/meetings/");
   (str "delete_meeting", str "meeting_id", httpx.DELETE, str "/meetings/");
   (str "get_policy", str "policy_id", httpx.GET,
    str "/teamviewerpolicies/")].

(** Tools that update one entity: name, identifier argument and the path
    in front of the identifier. *)
Definition update_tools : list (pystr * pystr * pystr) :=
  [(str "update_device", str "device_id", str "/devices/");
   (str "update_group", str "group_id", str "/groups/");
   (str "update_user", str "user_id", str "/users/");
   (str "update_session", str "session_code", str "/sessions/");
   (str "update_meeting", str "meeting_id", str "/meetings/")].

(** Tools whose body is all the arguments that are not [None]: name, verb
    and path. *)
Definition body_tools : list (pystr * httpx.Method * pystr) :=
  [(str "update_account", httpx.PUT, str "/account");
   (str "create_user", httpx.POST, str "/users");
   (str "create_session", httpx.POST, str "/sessions");
   (str "create_meeting", httpx.POST, str "/meetings")].

(** List tools: name, path, the arguments copied when truthy, and the
    boolean flag sent as ["true"]. *)
Definition filter_tools
  : list (pystr * pystr * list pystr * option pystr) :=
  [(str "list_devices", str "/devices",
    [str "groupid"; str "online_state"], Some (str "full_list"));
   (str "list_groups", str "/groups", [str "name"], None);
   (str "list_users", str "/users",
    [str "name"; str "email"; str "permissions"], Some (str "full_list"));
   (str "list_sessions", str "/sessions",
    [str "groupid"; str "state"], None)].

(** The first key each branch reads with [args[key]] or [args.pop(key)]. *)
Definition first_key : list (pystr * pystr) :=
  map (fun e => (fst (fst (fst e)), snd (fst (fst e)))) entity_tools
  ++ map (fun e => (fst (fst e), snd (fst e))) update_tools
  ++ [(str "create_group", str "name");
      (str "share_group", str "group_id");
      (str "close_session", str "session_code")].

(** The items of a dict whose value is not [None], in order. *)
Definition not_None_items (d : dict) : dict :=
  filter (fun kv => is_not_None (snd kv)) d.

(** The items of a dict under other keys than [k], in order. *)
Definition without_key (d : dict) (k : pystr) : dict :=
  filter (fun kv => negb (fst kv == k)) d.

(** Printable ASCII, or a line feed. *)
Definition plain_ascii (c : N) : bool :=
  ((32 <=? c) && (c <=? 126) || (c =? 10))%N.

(** 404 with a body of the API. *)
Definition response_404 : httpx.Response :=
  httpx.mkResponse 404 (str "device not found")
    (httpx.Undecodable (str "Expecting value: line 1 column 1 (char 0)")).

(** The query of a list tool: the copied fields, then the flag. *)
Definition filter_query (args : dict) (fields : list pystr)
  (flag : option pystr) : dict :=
  let query := fold_left (fun s x => copied_if_truthy args x s) fields [] in
  match flag with
  | Some f => flagged_if_truthy args f query
  | None => query
  end.

(* ===================================================================== *)
(** * Properties *)
(* ===================================================================== *)

(** ** Strings and dicts *)

Lemma pystr_eqb_refl (a : pystr) : (a == a) = true.
Proof.
  induction a as [|x a IH]; simpl; [reflexivity|].
  now rewrite N.eqb_refl, IH.
Qed.

Lemma pystr_eqb_eq (a b : pystr) : (a == b) = true <-> a = b.
Proof.
  split.
  - revert b; induction a as [|x a IH]; destruct b as [|y b]; simpl;
      try discriminate; [reflexivity|].
    intros H; apply andb_true_iff in H as [Hx Hr].
    apply N.eqb_eq in Hx; subst; f_equal; auto.
  - intros ->; apply pystr_eqb_refl.
Qed.

Lemma pystr_eqb_neq (a b : pystr) : (a == b) = false <-> a <> b.
Proof.
  rewrite <- pystr_eqb_eq; destruct (a == b); split; congruence.
Qed.

Lemma pystr_eqb_sym (a b : pystr) : (a == b) = (b == a).
Proof.
  destruct (a == b) eqn:E.
  - apply pystr_eqb_eq in E; subst; symmetry; apply pystr_eqb_refl.
  - symmetry; apply pystr_eqb_neq; apply pystr_eqb_neq in E; congruence.
Qed.

Lemma mem_In (k : pystr) (l : list pystr) : mem k l = true <-> In k l.
Proof.
  unfold mem; rewrite existsb_exists; split.
  - intros [x [Hx E]]; apply pystr_eqb_eq in E; subst; exact Hx.
  - intros H; exists k; split; [exact H | apply pystr_eqb_refl].
Qed.

Lemma dict_contains_lookup (d : dict) (k : pystr) :
  dict_contains d k = false <-> dict_lookup d k = None.
Proof.
  unfold dict_contains; destruct (dict_lookup d k); split; congruence.
Qed.

Lemma dict_lookup_set (d : dict) (k k' : pystr) (v : value) :
  dict_lookup (dict_set d k v) k' =
  if k == k' then Some v else dict_lookup d k'.
Proof.
  induction d as [|[k0 v0] d IH]; simpl.
  - reflexivity.
  - destruct (k0 == k) eqn:E0; simpl.
    + apply pystr_eqb_eq in E0; subst k0.
      destruct (k == k'); reflexivity.
    + destruct (k0 == k') eqn:E1; [|exact IH].
      apply pystr_eqb_eq in E1; subst k0.
      rewrite pystr_eqb_sym, E0; reflexivity.
Qed.

Lemma dict_contains_set (d : dict) (f k : pystr) (v : value) :
  dict_contains (dict_set d f v) k = (f == k) || dict_contains d k.
Proof.
  unfold dict_contains; rewrite dict_lookup_set.
  destruct (f == k); reflexivity.
Qed.

Lemma dict_lookup_remove_None (d : dict) (k k' : pystr) :
  dict_lookup d k' = None -> dict_lookup (dict_remove d k) k' = None.
Proof.
  induction d as [|[k0 v0] d IH]; simpl; [reflexivity|].
  destruct (k0 == k') eqn:E1; [discriminate|].
  intros H; destruct (k0 == k); simpl; [auto|].
  rewrite E1; auto.
Qed.

(** The path identifier is gone from the dict once it is popped. *)
Lemma dict_lookup_remove_same (d : dict) (k : pystr) :
  dict_lookup (dict_remove d k) k = None.
Proof.
  induction d as [|[k0 v0] d IH]; simpl; [reflexivity|].
  destruct (k0 == k) eqn:E; simpl; [exact IH|].
  rewrite E; exact IH.
Qed.

(** A key of the comprehension is a key of the dict it ranges over. *)
Lemma dict_not_None_items_fold (d acc : dict) (k : pystr) :
  dict_lookup acc k = None -> dict_lookup d k = None ->
  dict_lookup
    (fold_left
       (fun acc kv => if is_not_None (snd kv)
                      then dict_set acc (fst kv) (snd kv) else acc)
       d acc) k = None.
Proof.
  revert acc; induction d as [|[k0 v0] d IH]; simpl; intros acc Ha Hd;
    [exact Ha|].
  destruct (k0 == k) eqn:E; [discriminate|].
  apply IH; [|exact Hd].
  destruct (is_not_None v0); [|exact Ha].
  rewrite dict_lookup_set, E; exact Ha.
Qed.

Lemma dict_lookup_not_None_items (d : dict) (k : pystr) :
  dict_lookup d k = None -> dict_lookup (dict_not_None_items d) k = None.
Proof.
  intros H; unfold dict_not_None_items.
  apply dict_not_None_items_fold; [reflexivity | exact H].
Qed.

Lemma dict_or_empty_Some (d : dict) : dict_or_empty (Some d) = d.
Proof. destruct d; reflexivity. Qed.

Lemma has_key_or_None (d : dict) (k : pystr) :
  has_key (dict_or_None d) k = dict_contains d k.
Proof. destruct d; reflexivity. Qed.

Lemma truthy_get_contains (args : dict) (f : pystr) :
  truthy (dict_get args f) = true -> dict_contains args f = true.
Proof.
  unfold dict_get, dict_contains; destruct (dict_lookup args f);
    [reflexivity | discriminate].
Qed.

Lemma not_None_get_contains (args : dict) (f : pystr) :
  is_not_None (dict_get args f) = true -> dict_contains args f = true.
Proof.
  unfold dict_get, dict_contains; destruct (dict_lookup args f);
    [reflexivity | discriminate].
Qed.

(** ** The effect monad and the guarded copies *)

Lemma bind_ret_l {A B} (a : A) (k : A -> IO B) : bind (ret a) k = k a.
Proof. reflexivity. Qed.

Lemma bind_raise_l {A B} (e : Exn) (k : A -> IO B) :
  bind (raise e) k = raise e.
Proof. reflexivity. Qed.

(** The guarded copies never raise: the guard makes the key present. *)
Lemma copy_if_truthy_ret (args : dict) (field : pystr) (params : dict) :
  copy_if_truthy args field params = ret (copied_if_truthy args field params).
Proof.
  unfold copy_if_truthy, copied_if_truthy, getitem, dict_get.
  destruct (dict_lookup args field) as [v|]; [|reflexivity].
  destruct (truthy v); reflexivity.
Qed.

Lemma flag_if_truthy_ret (args : dict) (field : pystr) (params : dict) :
  flag_if_truthy args field params = ret (flagged_if_truthy args field params).
Proof.
  unfold flag_if_truthy, flagged_if_truthy.
  destruct (truthy _); reflexivity.
Qed.

Lemma copy_renamed_ret (args : dict) (entry : pystr * pystr) (params : dict) :
  copy_renamed args entry params = ret (renamed_copy args entry params).
Proof.
  destruct entry as [arg_key param_key].
  unfold copy_renamed, renamed_copy, getitem, dict_get; simpl.
  destruct (dict_lookup args arg_key) as [v|]; [|reflexivity].
  destruct (is_not_None v); reflexivity.
Qed.

Lemma for_each_ret {X S} (f : X -> S -> S) (body : X -> S -> IO S) :
  (forall x s, body x s = ret (f x s)) ->
  forall xs s, for_each xs body s = ret (fold_left (fun s x => f x s) xs s).
Proof.
  intros Hb xs; induction xs as [|x xs IH]; intros s; simpl; [reflexivity|].
  rewrite Hb, bind_ret_l; apply IH.
Qed.

Lemma for_each_copy_if_truthy (args : dict) (fields : list pystr) (d : dict) :
  for_each fields (copy_if_truthy args) d =
  ret (fold_left (fun s x => copied_if_truthy args x s) fields d).
Proof. apply for_each_ret, copy_if_truthy_ret. Qed.

Lemma for_each_copy_renamed (args : dict) (entries : list (pystr * pystr))
  (d : dict) :
  for_each entries (copy_renamed args) d =
  ret (fold_left (fun s x => renamed_copy args x s) entries d).
Proof. apply for_each_ret, copy_renamed_ret. Qed.

(** ** The transport client *)

Lemma get_token_run (w : World) (log : list httpx.Request) :
  get_token w log =
  match credential w with
  | Some token => (inr token, log)
  | None => (inl (ValueError missing_token_message), log)
  end.
Proof.
  unfold get_token, bind, environ_get, credential, getenv.
  destruct (find _ (environ w)) as [[k [|c token]]|]; reflexivity.
Qed.

(** Each of the four verbs: no request without a token; otherwise exactly
    one request, and the result is what [received] makes of the answer. *)
Lemma perform_run (c : Call) (w : World) (log : list httpx.Request) :
  perform c w log =
  match credential w with
  | None => (inl (ValueError missing_token_message), log)
  | Some token =>
      match network w (request_of token c) with
      | httpx.Responded r => (received c r, log ++ [request_of token c])
      | httpx.Failed => (inl RequestError, log ++ [request_of token c])
      end
  end.
Proof.
  destruct c; unfold perform, tv_get, tv_post, tv_put, tv_delete,
    build_headers, bind; rewrite get_token_run;
    (destruct (credential w) as [token|]; [|reflexivity]);
    unfold ret, client_request, request_of, auth_headers; simpl;
    (match goal with |- context [network w ?q] =>
       destruct (network w q) as [r|] end; [|reflexivity]);
    unfold received, raise_for_status, response_json, decoded, raise, ret;
    destruct (httpx.is_success r); try reflexivity;
    try (destruct (httpx.status_code r =? 204)%Z; try reflexivity);
    destruct (httpx.json_result r); reflexivity.
Qed.

Lemma on_exception_run (e : Exn) (w : World) (log : list httpx.Request) :
  on_exception e w log = (caught e, log).
Proof. destruct e; reflexivity. Qed.

(** A failure of a received response is always one the handler catches. *)
Lemma received_caught (c : Call) (r : httpx.Response) (e : Exn) :
  received c r = inl e -> exists t, caught e = inr [t].
Proof.
  unfold received, decoded.
  destruct (httpx.is_success r).
  - destruct c; try destruct (httpx.status_code r =? 204)%Z;
      try discriminate;
      destruct (httpx.json_result r); try discriminate;
      intros H; injection H as <-; eexists; reflexivity.
  - intros H; injection H as <-; eexists; reflexivity.
Qed.

(** One call under the [try]: the complete account of its outcome. *)
Lemma try_invoke_run (c : Call) (w : World) (log : list httpx.Request) :
  try_except (invoke c) on_exception w log =
  match credential w with
  | None => (inr (envelope (error_object missing_token_message) (Some 2%nat)),
             log)
  | Some token =>
      match network w (request_of token c) with
      | httpx.Responded r =>
          (match received c r with
           | inr data => inr (ok data)
           | inl e => caught e
           end, log ++ [request_of token c])
      | httpx.Failed => (inl RequestError, log ++ [request_of token c])
      end
  end.
Proof.
  unfold try_except, invoke, bind; rewrite perform_run.
  destruct (credential w) as [token|]; [|reflexivity].
  destruct (network w (request_of token c)) as [r|]; [|reflexivity].
  destruct (received c r) as [e|data]; [|reflexivity].
  apply on_exception_run.
Qed.

(** ** Where request keys come from *)

Lemma keys_within_nil (args : dict) : keys_within args [].
Proof. intros k H; discriminate H. Qed.

Lemma keys_within_copied (args : dict) (f : pystr) (d : dict) :
  keys_within args d -> keys_within args (copied_if_truthy args f d).
Proof.
  intros Hd k; unfold copied_if_truthy.
  destruct (truthy (dict_get args f)) eqn:T; [|apply Hd].
  rewrite dict_contains_set; intros H.
  apply orb_true_iff in H as [H|H]; [|apply Hd, H].
  apply pystr_eqb_eq in H; subst k; apply truthy_get_contains, T.
Qed.

Lemma keys_within_flagged (args : dict) (f : pystr) (d : dict) :
  keys_within args d -> keys_within args (flagged_if_truthy args f d).
Proof.
  intros Hd k; unfold flagged_if_truthy.
  destruct (truthy (dict_get args f)) eqn:T; [|apply Hd].
  rewrite dict_contains_set; intros H.
  apply orb_true_iff in H as [H|H]; [|apply Hd, H].
  apply pystr_eqb_eq in H; subst k; apply truthy_get_contains, T.
Qed.

Lemma keys_within_single (args : dict) (f : pystr) (v : value) :
  dict_lookup args f = Some v -> keys_within args [(f, v)].
Proof.
  intros L k; unfold dict_contains; simpl.
  destruct (f == k) eqn:E; [|discriminate].
  apply pystr_eqb_eq in E; subst k; rewrite L; reflexivity.
Qed.

Lemma keys_within_not_None_items (args : dict) :
  keys_within args (dict_not_None_items args).
Proof.
  intros k H; destruct (dict_contains args k) eqn:C; [reflexivity|].
  apply dict_contains_lookup in C.
  apply dict_lookup_not_None_items in C.
  apply dict_contains_lookup in C; congruence.
Qed.

Lemma keys_within_popped (args : dict) (f : pystr) :
  keys_within args (dict_not_None_items (dict_remove args f)).
Proof.
  intros k H; destruct (dict_contains args k) eqn:C; [reflexivity|].
  apply dict_contains_lookup in C.
  apply (dict_lookup_remove_None _ f) in C.
  apply dict_lookup_not_None_items in C.
  apply dict_contains_lookup in C; congruence.
Qed.

(** The query of [get_connection_reports]: every key is the translation of
    an argument that is present. *)
Lemma renamed_keys (args : dict) (entries : list (pystr * pystr)) :
  incl entries field_map ->
  forall d k,
    (dict_contains d k = true ->
     exists a, In (a, k) field_map /\ dict_contains args a = true) ->
    dict_contains (fold_left (fun s x => renamed_copy args x s) entries d) k
    = true ->
    exists a, In (a, k) field_map /\ dict_contains args a = true.
Proof.
  induction entries as [|[a q] entries IH]; simpl; intros Hin d k Hd;
    [exact Hd|].
  apply IH; [intros x Hx; apply Hin; right; exact Hx|].
  unfold renamed_copy; simpl.
  destruct (is_not_None (dict_get args a)) eqn:T; [|exact Hd].
  rewrite dict_contains_set; intros H.
  apply orb_true_iff in H as [H|H]; [|apply Hd, H].
  apply pystr_eqb_eq in H; subst k.
  exists a; split; [apply Hin; left; reflexivity|].
  apply not_None_get_contains, T.
Qed.

(** What the loop over the table leaves under a query key. *)
Lemma renamed_lookup_other (args : dict) (entries : list (pystr * pystr))
  (d : dict) (q : pystr) :
  ~ In q (map snd entries) ->
  dict_lookup (fold_left (fun s x => renamed_copy args x s) entries d) q
  = dict_lookup d q.
Proof.
  revert d; induction entries as [|[a q'] entries IH]; simpl; intros d Hq;
    [reflexivity|].
  rewrite IH by tauto.
  unfold renamed_copy; simpl.
  destruct (is_not_None (dict_get args a)); [|reflexivity].
  rewrite dict_lookup_set.
  destruct (q' == q) eqn:E; [|reflexivity].
  apply pystr_eqb_eq in E; tauto.
Qed.

Lemma renamed_lookup (args : dict) (entries : list (pystr * pystr))
  (d : dict) (a q : pystr) :
  NoDup (map snd entries) -> In (a, q) entries ->
  dict_lookup (fold_left (fun s x => renamed_copy args x s) entries d) q
  = if is_not_None (dict_get args a) then Some (dict_get args a)
    else dict_lookup d q.
Proof.
  revert d; induction entries as [|[a' q'] entries IH]; simpl;
    intros d Hnd Hin; [contradiction|].
  inversion Hnd as [|x l Hnot Hnd']; subst.
  destruct Hin as [E|Hin].
  - injection E as -> ->.
    rewrite renamed_lookup_other by exact Hnot.
    unfold renamed_copy; simpl.
    destruct (is_not_None (dict_get args a)); [|reflexivity].
    rewrite dict_lookup_set, pystr_eqb_refl; reflexivity.
  - rewrite IH by assumption.
    destruct (is_not_None (dict_get args a)); [reflexivity|].
    unfold renamed_copy; simpl.
    destruct (is_not_None (dict_get args a')); [|reflexivity].
    rewrite dict_lookup_set.
    destruct (q' == q) eqn:E; [|reflexivity].
    apply pystr_eqb_eq in E; subst q'.
    exfalso; apply Hnot.
    change q with (snd (a, q)); apply in_map, Hin.
Qed.

Lemma field_map_NoDup : NoDup (map snd field_map).
Proof.
  unfold field_map; simpl.
  repeat (constructor; [simpl; intros H; vm_compute in H;
                        repeat (destruct H as [H|H]; [discriminate H|]);
                        exact H|]).
  constructor.
Qed.

(** The table is one-to-one, and the two keys it leaves unchanged are the
    only argument names that are also query names. *)
Lemma field_map_injective (a a' q : pystr) :
  In (a, q) field_map -> In (a', q) field_map -> a = a'.
Proof.
  unfold field_map; intros H H'; vm_compute in H, H'.
  repeat (destruct H as [H|H]; [|try contradiction]);
    repeat (destruct H' as [H'|H']; [|try contradiction]);
    congruence.
Qed.

Lemma field_map_fixed (a q : pystr) :
  In (a, q) field_map -> In q (map fst field_map) -> a = q.
Proof.
  unfold field_map; intros H H'; vm_compute in H, H'.
  repeat (destruct H as [H|H]; [|try contradiction]);
    repeat (destruct H' as [H'|H']; [|try contradiction]);
    congruence.
Qed.

(** ** The catalog *)

Lemma catalog_mem (t : types.Tool) :
  In t TOOLS -> mem (types.name t) catalog = true.
Proof.
  intros H; apply mem_In; unfold catalog; apply in_map, H.
Qed.

Lemma find_tool_catalog (name : pystr) (t : types.Tool) :
  find_tool name = Some t -> In name catalog.
Proof.
  unfold find_tool; intros H; apply find_some in H as [Hin E].
  apply pystr_eqb_eq in E; subst name; unfold catalog; apply in_map, Hin.
Qed.

Lemma required_of_unknown (name : pystr) :
  ~ In name catalog -> required_of name = [].
Proof.
  unfold required_of; intros H.
  destruct (find_tool name) as [t|] eqn:F; [|reflexivity].
  exfalso; apply H; eapply find_tool_catalog; exact F.
Qed.

(** Names are unique in the catalog, so looking a tool up by its name
    finds that tool. *)
Lemma find_tool_name (t : types.Tool) :
  In t TOOLS -> find_tool (types.name t) = Some t.
Proof.
  unfold TOOLS; intros H; cbn [In] in H.
  repeat (destruct H as [H|H]; [subst t; vm_compute; reflexivity|]).
  contradiction.
Qed.

Lemma required_of_tool (t : types.Tool) :
  In t TOOLS -> required_of (types.name t) = types.required (types.inputSchema t).
Proof.
  intros H; unfold required_of; rewrite (find_tool_name H); reflexivity.
Qed.

(** [close_session] declares no optional argument. *)
Lemma close_session_no_optional (t : types.Tool) (p : pystr) :
  In t TOOLS -> types.name t = str "close_session" ->
  optional_argument t p -> False.
Proof.
  intros H Hn; apply find_tool_name in H; rewrite Hn in H.
  vm_compute in H; injection H as <-.
  intros [Hp Hr]; apply Hr; exact Hp.
Qed.

(** The declared arguments of [get_connection_reports] are the argument
    names of its table. *)
Lemma connection_reports_properties (t : types.Tool) (p : pystr) :
  In t TOOLS -> types.name t = str "get_connection_reports" ->
  optional_argument t p -> In p (map fst field_map).
Proof.
  intros H Hn; apply find_tool_name in H; rewrite Hn in H.
  vm_compute in H; injection H as <-.
  intros [Hp Hr]; exact Hp.
Qed.

(* ===================================================================== *)
(** * The dispatcher *)
(* ===================================================================== *)

Lemma provenance_none (name : pystr) (args : dict) (c : Call) :
  call_json c = None -> call_params c = None -> provenance name args c.
Proof.
  intros Hj Hp; split; intros k H; [rewrite Hj in H | rewrite Hp in H];
    discriminate H.
Qed.

Lemma provenance_body (name : pystr) (args : dict) (c : Call) (d : dict) :
  call_json c = Some d -> call_params c = None -> keys_within args d ->
  provenance name args c.
Proof.
  intros Hj Hp Hd; split; intros k H; [rewrite Hj in H | rewrite Hp in H];
    [left; apply Hd, H | discriminate H].
Qed.

Lemma provenance_query (name : pystr) (args : dict) (c : Call) (d : dict) :
  name <> str "get_connection_reports" ->
  call_json c = None -> call_params c = dict_or_None d ->
  keys_within args d ->
  provenance name args c.
Proof.
  intros Hn Hj Hp Hd; split; intros k H; [rewrite Hj in H | rewrite Hp in H];
    [discriminate H|].
  rewrite has_key_or_None in H; left; split; [exact Hn | apply Hd, H].
Qed.

Lemma provenance_close_session (args : dict) (path : pystr) :
  provenance (str "close_session") args
    (Put path (Some [(str "state", VStr (str "closed"))])).
Proof.
  split; intros k H; [|simpl in H; discriminate H].
  right; split; [reflexivity|].
  change (dict_contains [(str "state", VStr (str "closed"))] k = true) in H.
  unfold dict_contains, dict_lookup in H.
  destruct (str "state" == k) eqn:E; [|discriminate H].
  apply pystr_eqb_eq in E; congruence.
Qed.

Lemma provenance_reports (args : dict) (path : pystr) :
  provenance (str "get_connection_reports") args
    (Get path (dict_or_None (reports_query args))).
Proof.
  split; intros k H; [simpl in H; discriminate H|].
  right; split; [reflexivity|].
  simpl in H; rewrite has_key_or_None in H.
  eapply renamed_keys; [apply incl_refl | | exact H].
  intros H0; discriminate H0.
Qed.

Create HintDb shaping.

#[local] Hint Resolve keys_within_nil keys_within_copied keys_within_flagged
  keys_within_single keys_within_not_None_items keys_within_popped : shaping.

(** In the branch of a name, the name is known. *)
Ltac known_name :=
  match goal with
  | H : (?n == _) = true |- _ =>
      apply pystr_eqb_eq in H;
      repeat match goal with H' : (_ == _) = false |- _ => clear H' end;
      subst n
  end.

(** Run the steps of a branch that cannot raise. *)
Ltac run_pure :=
  repeat progress
    (rewrite ?copy_if_truthy_ret, ?flag_if_truthy_ret,
       ?for_each_copy_if_truthy, ?for_each_copy_renamed, ?bind_ret_l;
     cbv beta; cbn [fold_left]).

Ltac provenance_tac :=
  first
    [ apply provenance_close_session
    | apply provenance_reports
    | apply provenance_none; reflexivity
    | eapply provenance_body;
      [reflexivity | reflexivity
      | rewrite ?dict_or_empty_Some; eauto with shaping]
    | eapply provenance_query;
      [discriminate | reflexivity | reflexivity | eauto with shaping] ].

(** A branch is a run of key accesses, each of which may raise
    [KeyError], followed by one transport call. *)
Ltac shape_branch :=
  run_pure;
  lazymatch goal with
  | |- shaped _ ?args (bind (getitem ?args ?k) _) =>
      unfold getitem at 1; destruct (dict_lookup args k) eqn:?;
      [ rewrite bind_ret_l; cbv beta; shape_branch
      | apply shaped_missing; [reflexivity | assumption] ]
  | |- shaped _ ?args (bind (dict_pop ?args ?k) _) =>
      unfold dict_pop at 1; destruct (dict_lookup args k) eqn:?;
      [ rewrite bind_ret_l; cbv beta iota; shape_branch
      | apply shaped_missing; [reflexivity | assumption] ]
  | |- shaped _ _ (bind (tv_get _ _) _) =>
      apply (shaped_call (c := Get _ _)); [reflexivity | provenance_tac]
  | |- shaped _ _ (bind (tv_post _ _) _) =>
      apply (shaped_call (c := Post _ _)); [reflexivity | provenance_tac]
  | |- shaped _ _ (bind (tv_put _ _) _) =>
      apply (shaped_call (c := Put _ _)); [reflexivity | provenance_tac]
  | |- shaped _ _ (bind (tv_delete _) _) =>
      apply (shaped_call (c := Delete _)); [reflexivity | provenance_tac]
  end.

Section Dispatch.

Variable isprintable : N -> bool.

(** Every branch of the chain, and the final [else]. *)
Lemma call_tool_shaped (name : pystr) (args : dict) :
  shaped name args (call_tool isprintable name args).
Proof.
  unfold call_tool.
  repeat match goal with
         | |- shaped _ _ (if ?b then _ else _) => destruct b eqn:?
         end.
  all: try (known_name; shape_branch).
  apply shaped_unknown.
  unfold mem, catalog; cbn [TOOLS map existsb types.name tool].
  repeat match goal with
         | H : (_ == _) = false |- _ => rewrite H; clear H
         end.
  reflexivity.
Qed.

(** The branches the properties below look into. *)
Lemma call_tool_close_session (args : dict) :
  call_tool isprintable (str "close_session") args =
  (session_code <- getitem args (str "session_code") ;;
   invoke (Put (str "/sessions/" ++ fstr isprintable session_code)
               (Some [(str "state", VStr (str "closed"))]))).
Proof. reflexivity. Qed.

Lemma call_tool_connection_reports (args : dict) :
  call_tool isprintable (str "get_connection_reports") args =
  invoke (Get (str "/reports/connections") (dict_or_None (reports_query args))).
Proof.
  change (call_tool isprintable (str "get_connection_reports") args)
    with (params <- for_each field_map (copy_renamed args) [] ;;
          data <- tv_get (str "/reports/connections") (dict_or_None params) ;;
          ret (ok data)).
  rewrite for_each_copy_renamed; reflexivity.
Qed.

Lemma call_tool_create_group (args : dict) :
  call_tool isprintable (str "create_group") args =
  (name_ <- getitem args (str "name") ;;
   invoke (Post (str "/groups")
                (Some (copied_if_truthy args (str "policy_id")
                                        [(str "name", name_)])))).
Proof.
  change (call_tool isprintable (str "create_group") args)
    with (name_ <- getitem args (str "name") ;;
          payload <- copy_if_truthy args (str "policy_id")
                                    [(str "name", name_)] ;;
          data <- tv_post (str "/groups") (Some payload) ;;
          ret (ok data)).
  unfold getitem; destruct (dict_lookup args (str "name")); [|reflexivity].
  rewrite !bind_ret_l, copy_if_truthy_ret; reflexivity.
Qed.

(** The handler around a shaped body. *)
Lemma handle_call_tool_unfold (name : pystr) (arguments : option dict) :
  handle_call_tool isprintable name arguments =
  try_except (call_tool isprintable name (dict_or_empty arguments))
             on_exception.
Proof. reflexivity. Qed.

Lemma try_missing_run (k : pystr) (w : World) (log : list httpx.Request) :
  try_except (raise (KeyError k)) on_exception w log
  = (inl (KeyError k), log).
Proof. reflexivity. Qed.

Lemma try_ret_run (ts : list types.TextContent) (w : World)
  (log : list httpx.Request) :
  try_except (ret ts) on_exception w log = (inr ts, log).
Proof. reflexivity. Qed.

(** The handler, by cases: a missing required argument, one transport
    call under the [try], or an unknown name. *)
Lemma handle_call_tool_cases (name : pystr) (arguments : option dict)
  (w : World) (log : list httpx.Request) :
  (exists k,
      mem k (required_of name) = true
      /\ dict_lookup (dict_or_empty arguments) k = None
      /\ handle_call_tool isprintable name arguments w log
         = (inl (KeyError k), log))
  \/ (exists c,
         mem name catalog = true
         /\ provenance name (dict_or_empty arguments) c
         /\ handle_call_tool isprintable name arguments w log
            = try_except (invoke c) on_exception w log)
  \/ (mem name catalog = false
      /\ handle_call_tool isprintable name arguments w log
         = (inr (envelope (unknown_tool_object name) None), log)).
Proof.
  rewrite handle_call_tool_unfold.
  pose proof (call_tool_shaped name (dict_or_empty arguments)) as S.
  inversion S as [k Hk Hl E | c Hc Hp E | Hu E].
  - left; exists k; split; [assumption|]; split; [assumption|reflexivity].
  - right; left; exists c; split; [assumption|]; split;
      [assumption|reflexivity].
  - right; right; split; [assumption|reflexivity].
Qed.

(** C1 (as amended): every invocation either returns exactly one result
    envelope, or raises past the dispatch boundary in one of two ways: a
    [KeyError] for a required argument that is missing, before any
    request is made, or the client's own failure of the one request that
    was made.  At most one request is made.  So success, an upstream
    error status, a missing credential and an undecodable body all end in
    an envelope; a transport failure and a shaping fault do not. *)
Theorem invocation_outcomes (name : pystr) (arguments : option dict)
  (w : World) :
  let run := handle_call_tool isprintable name arguments w [] in
  (exists t, fst run = inr [t] /\ (List.length (snd run) <= 1)%nat)
  \/ (exists k,
         fst run = inl (KeyError k) /\ snd run = []
         /\ In k (required_of name)
         /\ dict_contains (dict_or_empty arguments) k = false)
  \/ (exists req,
         fst run = inl RequestError /\ snd run = [req]
         /\ network w req = httpx.Failed).
Proof.
  intros run; subst run.
  destruct (handle_call_tool_cases name arguments w [])
    as [[k [Hk [Hl E]]] | [[c [Hc [Hp E]]] | [Hu E]]]; rewrite E; clear E.
  - right; left; exists k; repeat split.
    + apply mem_In, Hk.
    + apply dict_contains_lookup, Hl.
  - rewrite try_invoke_run.
    destruct (credential w) as [token|].
    2: { left; eexists; split; [reflexivity | simpl; lia]. }
    destruct (network w (request_of token c)) as [r|] eqn:Hnet.
    2: { right; right; eexists; repeat split; exact Hnet. }
    left; simpl.
    destruct (received c r) as [e|data] eqn:R.
    + destruct (received_caught c r R) as [t Ht].
      exists t; split; [exact Ht | lia].
    + eexists; split; [reflexivity | lia].
  - left; eexists; split; [reflexivity | simpl; lia].
Qed.

(** C3 (as amended): when the one request of an invocation is answered
    with a 2xx status and a body that does not decode as JSON, the
    [JSONDecodeError] is a [ValueError], the second [except] clause
    catches it, and the invocation returns the soft envelope
    [{"error": <decoder message>}] (indented); nothing is raised.  (A 204
    answer to a DELETE is not decoded at all.) *)
Theorem undecodable_body_is_soft_error (name : pystr)
  (arguments : option dict) (w : World) (req : httpx.Request)
  (r : httpx.Response) (msg : pystr) :
  snd (handle_call_tool isprintable name arguments w []) = [req] ->
  network w req = httpx.Responded r ->
  httpx.is_success r = true ->
  httpx.json_result r = httpx.Undecodable msg ->
  ~ (httpx.method req = httpx.DELETE /\ httpx.status_code r = 204%Z) ->
  fst (handle_call_tool isprintable name arguments w [])
  = inr [types.mkTextContent (str "text")
           (json.dumps (VDict [(str "error", VStr msg)]) (Some 2%nat))].
Proof.
  intros Hlog Hnet Hok Hjson Hnot.
  destruct (handle_call_tool_cases name arguments w [])
    as [[k [_ [_ E]]] | [[c [_ [_ E]]] | [_ E]]]; rewrite E in *; clear E;
    try discriminate Hlog.
  rewrite try_invoke_run in *.
  destruct (credential w) as [token|]; [|discriminate Hlog].
  destruct (network w (request_of token c)) as [r'|] eqn:Hnet'.
  - simpl in Hlog; injection Hlog as <-.
    rewrite Hnet' in Hnet; injection Hnet as ->.
    simpl; unfold received, decoded; rewrite Hok, Hjson.
    destruct c; try reflexivity.
    destruct (httpx.status_code r =? 204)%Z eqn:S; [|reflexivity].
    exfalso; apply Hnot; split; [reflexivity | apply Z.eqb_eq, S].
  - simpl in Hlog; injection Hlog as <-; congruence.
Qed.

Lemma credential_unset (w : World) :
  getenv w (str "TEAMVIEWER_API_TOKEN") = None
  \/ getenv w (str "TEAMVIEWER_API_TOKEN") = Some [] ->
  credential w = None.
Proof. unfold credential; intros [-> | ->]; reflexivity. Qed.

(** C4: for every tool of the catalog, invoked with all its required
    arguments present, an unset or empty [TEAMVIEWER_API_TOKEN] gives the
    same soft envelope [{"error": <message of get_token>}], and no request
    is made. *)
Theorem missing_credential_soft_error (t : types.Tool)
  (arguments : option dict) (w : World) :
  In t TOOLS ->
  (forall k, In k (types.required (types.inputSchema t)) ->
             dict_contains (dict_or_empty arguments) k = true) ->
  getenv w (str "TEAMVIEWER_API_TOKEN") = None
  \/ getenv w (str "TEAMVIEWER_API_TOKEN") = Some [] ->
  handle_call_tool isprintable (types.name t) arguments w []
  = (inr [types.mkTextContent (str "text")
            (json.dumps (VDict [(str "error", VStr missing_token_message)])
                        (Some 2%nat))],
     []).
Proof.
  intros Ht Hreq Henv; apply credential_unset in Henv.
  destruct (handle_call_tool_cases (types.name t) arguments w [])
    as [[k [Hk [Hl E]]] | [[c [_ [_ E]]] | [Hu E]]]; rewrite E; clear E.
  - exfalso.
    rewrite (required_of_tool Ht) in Hk; apply mem_In in Hk.
    apply Hreq in Hk; apply dict_contains_lookup in Hl; congruence.
  - rewrite try_invoke_run, Henv; reflexivity.
  - rewrite (catalog_mem Ht) in Hu; discriminate Hu.
Qed.

(** C5: a name that is not in the catalog, with any arguments, returns
    the envelope whose text is [json.dumps({"error": "Unknown tool: " +
    name})]; no request is made and nothing is raised. *)
Theorem unknown_tool_soft_error (name : pystr) (arguments : option dict)
  (w : World) :
  ~ In name (map types.name TOOLS) ->
  handle_call_tool isprintable name arguments w []
  = (inr [types.mkTextContent (str "text")
            (json.dumps
               (VDict [(str "error", VStr (str "Unknown tool: " ++ name))])
               None)],
     []).
Proof.
  intros Hn.
  destruct (handle_call_tool_cases name arguments w [])
    as [[k [Hk [Hl E]]] | [[c [Hc [_ E]]] | [Hu E]]]; rewrite E; clear E.
  - rewrite (required_of_unknown Hn) in Hk; discriminate Hk.
  - apply mem_In in Hc; contradiction.
  - reflexivity.
Qed.

(** C6: with a token configured, [close_session] makes exactly one
    request, whatever else the arguments hold and whatever the network
    answers: a PUT to [/sessions/<session_code>] whose JSON body is
    exactly [{"state": "closed"}]. *)
Theorem close_session_request (args : dict) (session_code : value)
  (w : World) (token : pystr) :
  dict_lookup args (str "session_code") = Some session_code ->
  credential w = Some token ->
  snd (handle_call_tool isprintable (str "close_session") (Some args) w [])
  = [httpx.mkRequest httpx.PUT
       (BASE_URL ++ str "/sessions/" ++ fstr isprintable session_code)
       (auth_headers token)
       None
       (Some [(str "state", VStr (str "closed"))])
       30].
Proof.
  intros Hcode Htoken.
  rewrite handle_call_tool_unfold, dict_or_empty_Some, call_tool_close_session.
  unfold getitem; rewrite Hcode, bind_ret_l, try_invoke_run, Htoken.
  destruct (network w _); reflexivity.
Qed.

Lemma reports_query_lookup (args : dict) (a q : pystr) :
  In (a, q) field_map ->
  dict_lookup (reports_query args) q
  = if is_not_None (dict_get args a) then Some (dict_get args a) else None.
Proof.
  intros H; unfold reports_query.
  rewrite (@renamed_lookup args field_map [] a q field_map_NoDup H); reflexivity.
Qed.

Lemma reports_query_keys (args : dict) (k : pystr) :
  dict_contains (reports_query args) k = true ->
  exists a, In (a, k) field_map /\ dict_contains args a = true.
Proof.
  unfold reports_query; apply renamed_keys;
    [apply incl_refl | intros H; discriminate H].
Qed.

Lemma dict_get_absent (args : dict) (k : pystr) :
  dict_contains args k = false -> dict_get args k = VNone.
Proof.
  intros H; apply dict_contains_lookup in H; unfold dict_get; rewrite H.
  reflexivity.
Qed.

Lemma dict_get_present (args : dict) (k : pystr) (v : value) :
  dict_lookup args k = Some v -> dict_get args k = v.
Proof. intros H; unfold dict_get; rewrite H; reflexivity. Qed.

(** C7: with a token configured, [get_connection_reports] makes one GET
    to [/reports/connections] whose query is built from the table: under
    each translated name sits the argument of the caller-facing name when
    that argument is supplied (present and not [None]) and nothing
    otherwise, and there are no other keys (an empty query is sent as no
    query at all).  Supplying only [from_date] and [limit] gives exactly
    [{from: <value>, limit: <value>}]. *)
Theorem connection_reports_query (args : dict) (w : World) (token : pystr) :
  credential w = Some token ->
  exists query : dict,
    snd (handle_call_tool isprintable (str "get_connection_reports")
                          (Some args) w [])
    = [httpx.mkRequest httpx.GET (BASE_URL ++ str "/reports/connections")
         (auth_headers token) (dict_or_None query) None 30]
    /\ (forall a q, In (a, q) field_map ->
          dict_lookup query q
          = if is_not_None (dict_get args a) then Some (dict_get args a)
            else None)
    /\ (forall k, dict_contains query k = true ->
          exists a, In (a, k) field_map)
    /\ (forall v1 v2,
          dict_lookup args (str "from_date") = Some v1 -> v1 <> VNone ->
          dict_lookup args (str "limit") = Some v2 -> v2 <> VNone ->
          dict_contains args (str "to_date") = false ->
          dict_contains args (str "device_id") = false ->
          dict_contains args (str "user_id") = false ->
          dict_contains args (str "session_code") = false ->
          dict_contains args (str "offset") = false ->
          query = [(str "from", v1); (str "limit", v2)]).
Proof.
  intros Htoken; exists (reports_query args); repeat split.
  - rewrite handle_call_tool_unfold, dict_or_empty_Some,
      call_tool_connection_reports, try_invoke_run, Htoken.
    destruct (network w _); reflexivity.
  - intros a q; apply reports_query_lookup.
  - intros k H; destruct (@reports_query_keys _ _ H) as [a [Ha _]].
    exists a; exact Ha.
  - intros v1 v2 Hfrom Hv1 Hlimit Hv2 Hto Hdev Huser Hsess Hoff.
    unfold reports_query, field_map; cbn [fold_left].
    unfold renamed_copy; cbn [fst snd].
    rewrite (@dict_get_present _ _ _ Hfrom), (@dict_get_present _ _ _ Hlimit),
      (@dict_get_absent _ _ Hto), (@dict_get_absent _ _ Hdev),
      (@dict_get_absent _ _ Huser), (@dict_get_absent _ _ Hsess),
      (@dict_get_absent _ _ Hoff).
    destruct v1; [congruence | ..]; (destruct v2; [congruence | ..]);
      reflexivity.
Qed.

(** The requests of an invocation: none, or the one of its call. *)
Lemma try_invoke_requests (c : Call) (w : World) (req : httpx.Request) :
  In req (snd (try_except (invoke c) on_exception w [])) ->
  exists token, credential w = Some token /\ req = request_of token c.
Proof.
  rewrite try_invoke_run.
  destruct (credential w) as [token|]; [|intros []].
  intros H; exists token; split; [reflexivity|].
  destruct (network w (request_of token c)); simpl in H;
    destruct H as [H|[]]; symmetry; exact H.
Qed.

(** C8: for every tool of the catalog and every optional argument of it
    that is absent from the arguments, no request of the invocation has a
    key for that argument, neither in its JSON body nor in its query (for
    [get_connection_reports], neither under the argument's own name nor
    under its translated name).  In particular [create_group] with only
    [name] sends the body [{"name": <name>}] and nothing else. *)
Theorem absent_optional_not_sent :
  (forall (t : types.Tool) (p : pystr) (arguments : option dict)
          (w : World) (req : httpx.Request),
      In t TOOLS ->
      In p (map fst (types.properties (types.inputSchema t))) ->
      ~ In p (types.required (types.inputSchema t)) ->
      dict_contains (dict_or_empty arguments) p = false ->
      In req (snd (handle_call_tool isprintable (types.name t) arguments
                                     w [])) ->
      has_key (httpx.json_payload req) p = false
      /\ has_key (httpx.params req) p = false
      /\ (forall q, types.name t = str "get_connection_reports" ->
                    In (p, q) field_map ->
                    has_key (httpx.params req) q = false))
  /\
  (forall (name_ : value) (w : World) (token : pystr),
      credential w = Some token ->
      snd (handle_call_tool isprintable (str "create_group")
                            (Some [(str "name", name_)]) w [])
      = [httpx.mkRequest httpx.POST (BASE_URL ++ str "/groups")
           (auth_headers token) None (Some [(str "name", name_)]) 30]).
Proof.
  split.
  - intros t p arguments w req Ht Hprop Hopt Habsent Hreq.
    assert (Hoptional : optional_argument t p) by (split; assumption).
    destruct (handle_call_tool_cases (types.name t) arguments w [])
      as [[k [_ [_ E]]] | [[c [_ [[Hjson Hquery] E]]] | [_ E]]];
      rewrite E in Hreq; clear E; try (destruct Hreq; fail).
    apply try_invoke_requests in Hreq as [token [_ ->]]; simpl.
    repeat split.
    + destruct (has_key (call_json c) p) eqn:K; [exfalso | reflexivity].
      destruct (Hjson p K) as [C | [Hn _]]; [congruence|].
      exact (close_session_no_optional Ht Hn Hoptional).
    + destruct (has_key (call_params c) p) eqn:K; [exfalso | reflexivity].
      destruct (Hquery p K) as [[_ C] | [Hn [a [Ha C]]]]; [congruence|].
      pose proof (connection_reports_properties Ht Hn Hoptional) as Hp.
      rewrite (field_map_fixed Ha Hp) in C; congruence.
    + intros q Hn Hpq.
      destruct (has_key (call_params c) q) eqn:K; [exfalso | reflexivity].
      destruct (Hquery q K) as [[Hne _] | [_ [a [Ha C]]]]; [congruence|].
      rewrite (field_map_injective Ha Hpq) in C; congruence.
  - intros name_ w token Htoken.
    rewrite handle_call_tool_unfold, dict_or_empty_Some,
      call_tool_create_group.
    change (getitem [(str "name", name_)] (str "name"))
      with (@ret value name_).
    rewrite bind_ret_l, try_invoke_run, Htoken.
    destruct (network w _); reflexivity.
Qed.

(** C9, at an unregistered name: the envelope of the final [else] is
    serialized by [json.dumps] without [indent], on one line; this is not
    the indented text that every other envelope ([ok] and the two
    [except] clauses) gets from [indent=2]. *)
Theorem unknown_tool_text_not_indented (arguments : option dict)
  (w : World) :
  let obj := VDict [(str "error", VStr (str "Unknown tool: nope"))] in
  fst (handle_call_tool isprintable (str "nope") arguments w [])
  = inr [types.mkTextContent (str "text") (json.dumps obj None)]
  /\ json.dumps obj None <> json.dumps obj (Some 2%nat).
Proof.
  split; [reflexivity|].
  vm_compute; discriminate.
Qed.

(** C10: an absent argument mapping and an empty one are the same
    invocation: same requests, same result. *)
Theorem absent_arguments_as_empty (name : pystr) (w : World)
  (log : list httpx.Request) :
  handle_call_tool isprintable name None w log
  = handle_call_tool isprintable name (Some []) w log.
Proof.
  rewrite !handle_call_tool_unfold.
  assert (E : dict_or_empty None = dict_or_empty (Some []))
    by (unfold dict_or_empty; reflexivity).
  rewrite E; reflexivity.
Qed.

End Dispatch.

(* ===================================================================== *)
(** * The transport client and status 204 *)
(* ===================================================================== *)

(** C2, at a 204 answer with an empty body: only [tv_delete] synthesizes
    [{"success": True}]; [tv_get], [tv_post] and [tv_put] go on to
    [response.json()], which raises on the empty body, and an
    [update_account] so answered comes back as an error envelope. *)
Theorem only_delete_synthesizes_204 :
  let w := answering response_204 in
  let failure :=
    JSONDecodeError (str "Expecting value: line 1 column 1 (char 0)") in
  fst (tv_delete (str "/devices/d1") w [])
  = inr (VDict [(str "success", VBool true)])
  /\ fst (tv_put (str "/account") (Some [(str "name", VStr (str "Ann"))]) w [])
     = inl failure
  /\ fst (tv_post (str "/groups") (Some [(str "name", VStr (str "Lab"))]) w [])
     = inl failure
  /\ fst (tv_get (str "/ping") None w []) = inl failure
  /\ fst (handle_call_tool latin1_isprintable (str "update_account")
            (Some [(str "name", VStr (str "Ann"))]) w [])
     = inr [types.mkTextContent (str "text")
              (json.dumps
                 (VDict [(str "error",
                          VStr (str "Expecting value: line 1 column 1 (char 0)"))])
                 (Some 2%nat))].
Proof. repeat split. Qed.

(* ===================================================================== *)
(** * Instances and counterexamples *)
(* ===================================================================== *)

Ltac not_listed :=
  let H := fresh in
  intros H; vm_compute in H;
  repeat (destruct H as [H|H]; [discriminate H|]); exact H.

(** C1, as stated, fails: [get_device] without [device_id] raises
    [KeyError] past the handler, and no envelope is returned. *)
Lemma missing_argument_raises :
  let run := handle_call_tool latin1_isprintable (str "get_device") None
                              (answering response_200) [] in
  fst run = inl (KeyError (str "device_id"))
  /\ ~ (exists ts, fst run = inr ts).
Proof.
  split; [reflexivity|].
  intros [ts H]; vm_compute in H; discriminate H.
Qed.

(** C3, as stated, fails: a 200 answer whose body is not JSON raises
    nothing; the handler returns an envelope. *)
Lemma undecodable_body_does_not_escalate :
  let run := handle_call_tool latin1_isprintable (str "ping") None
                              (answering response_200_garbled) [] in
  fst run
  = inr [types.mkTextContent (str "text")
           (json.dumps
              (VDict [(str "error",
                       VStr (str "Expecting value: line 1 column 1 (char 0)"))])
              (Some 2%nat))]
  /\ ~ (exists e, fst run = inl e).
Proof.
  split; [reflexivity|].
  intros [e H]; vm_compute in H; discriminate H.
Qed.

(** C3, an instance: [ping] answered with 200 and a body that is not JSON. *)
Lemma undecodable_body_is_soft_error_witness :
  fst (handle_call_tool latin1_isprintable (str "ping") None
         (answering response_200_garbled) [])
  = inr [types.mkTextContent (str "text")
           (json.dumps
              (VDict [(str "error",
                       VStr (str "Expecting value: line 1 column 1 (char 0)"))])
              (Some 2%nat))].
Proof.
  eapply (@undecodable_body_is_soft_error latin1_isprintable (str "ping")
            None (answering response_200_garbled) _ response_200_garbled).
  - reflexivity.
  - reflexivity.
  - reflexivity.
  - reflexivity.
  - intros [_ H]; discriminate H.
Defined.

(** C4, an instance: [get_device] with its [device_id], no token in the
    environment. *)
Lemma missing_credential_soft_error_witness :
  handle_call_tool latin1_isprintable (str "get_device")
    (Some [(str "device_id", VStr (str "d1"))]) unconfigured []
  = (inr [types.mkTextContent (str "text")
            (json.dumps (VDict [(str "error", VStr missing_token_message)])
                        (Some 2%nat))],
     []).
Proof.
  apply (@missing_credential_soft_error latin1_isprintable
           (nth 3 TOOLS (tool "" "" [] []))
           (Some [(str "device_id", VStr (str "d1"))]) unconfigured).
  - apply nth_In; vm_compute; lia.
  - intros k H; vm_compute in H; destruct H as [<-|[]]; reflexivity.
  - left; reflexivity.
Defined.

(** C5, an instance: the unregistered name [nope]. *)
Lemma unknown_tool_soft_error_witness :
  handle_call_tool latin1_isprintable (str "nope")
    (Some [(str "x", VInt 1)]) (answering response_200) []
  = (inr [types.mkTextContent (str "text")
            (json.dumps
               (VDict [(str "error", VStr (str "Unknown tool: nope"))])
               None)],
     []).
Proof.
  apply (@unknown_tool_soft_error latin1_isprintable (str "nope")).
  not_listed.
Defined.

(** C6, an instance: [close_session] with a session code and a stray
    [state] argument, which does not reach the body. *)
Lemma close_session_request_witness :
  snd (handle_call_tool latin1_isprintable (str "close_session")
         (Some [(str "session_code", VStr (str "s00-000-000"));
                (str "state", VStr (str "open"))])
         (answering response_200) [])
  = [httpx.mkRequest httpx.PUT
       (BASE_URL ++ str "/sessions/s00-000-000")
       (auth_headers (str "secret"))
       None
       (Some [(str "state", VStr (str "closed"))])
       30].
Proof.
  apply (@close_session_request latin1_isprintable
           [(str "session_code", VStr (str "s00-000-000"));
            (str "state", VStr (str "open"))]
           (VStr (str "s00-000-000")) (answering response_200)
           (str "secret")).
  - reflexivity.
  - reflexivity.
Defined.

(** C7, an instance: only [from_date] and [limit] are supplied. *)
Lemma connection_reports_query_witness :
  exists query : dict,
    snd (handle_call_tool latin1_isprintable (str "get_connection_reports")
           (Some [(str "from_date", VStr (str "2024-01-01T00:00:00"));
                  (str "limit", VInt 50)])
           (answering response_200) [])
    = [httpx.mkRequest httpx.GET (BASE_URL ++ str "/reports/connections")
         (auth_headers (str "secret")) (dict_or_None query) None 30]
    /\ query = [(str "from", VStr (str "2024-01-01T00:00:00"));
                (str "limit", VInt 50)].
Proof.
  destruct (@connection_reports_query latin1_isprintable
              [(str "from_date", VStr (str "2024-01-01T00:00:00"));
               (str "limit", VInt 50)]
              (answering response_200) (str "secret") eq_refl)
    as [query [Hreq [_ [_ Honly]]]].
  exists query; split; [exact Hreq|].
  apply Honly; try reflexivity; discriminate.
Defined.

(** C8, an instance: [create_group] with only [name]; no [policy_id] key
    is sent. *)
Lemma absent_optional_not_sent_witness :
  let req :=
    httpx.mkRequest httpx.POST (BASE_URL ++ str "/groups")
      (auth_headers (str "secret")) None
      (Some [(str "name", VStr (str "X"))]) 30 in
  snd (handle_call_tool latin1_isprintable (str "create_group")
         (Some [(str "name", VStr (str "X"))]) (answering response_200) [])
  = [req]
  /\ has_key (httpx.json_payload req) (str "policy_id") = false
  /\ has_key (httpx.params req) (str "policy_id") = false.
Proof.
  destruct (absent_optional_not_sent latin1_isprintable) as [Hall Hgroup].
  split.
  - apply (Hgroup (VStr (str "X")) (answering response_200) (str "secret")).
    reflexivity.
  - destruct (Hall (nth 7 TOOLS (tool "" "" [] [])) (str "policy_id")
                (Some [(str "name", VStr (str "X"))])
                (answering response_200)
                (httpx.mkRequest httpx.POST (BASE_URL ++ str "/groups")
                   (auth_headers (str "secret")) None
                   (Some [(str "name", VStr (str "X"))]) 30))
      as [Hbody [Hquery _]].
    + apply nth_In; vm_compute; lia.
    + vm_compute; right; left; reflexivity.
    + not_listed.
    + reflexivity.
    + left; reflexivity.
    + split; assumption.
Defined.

(* ===================================================================== *)
(** * More of the dispatcher: routes, bodies and queries *)
(* ===================================================================== *)

(** ** The comprehension and the pop, on well-formed dicts *)

Lemma dict_set_fresh (d : dict) (k : pystr) (v : value) :
  dict_lookup d k = None -> dict_set d k v = d ++ [(k, v)].
Proof.
  induction d as [|[k0 v0] d IH]; simpl; [reflexivity|].
  destruct (k0 == k); [discriminate|].
  intros H; rewrite IH by exact H; reflexivity.
Qed.

Lemma comprehension_from (d acc : dict) :
  NoDup (map fst d) ->
  (forall kv, In kv d -> dict_lookup acc (fst kv) = None) ->
  fold_left
    (fun acc kv => if is_not_None (snd kv)
                   then dict_set acc (fst kv) (snd kv) else acc)
    d acc
  = acc ++ not_None_items d.
Proof.
  revert acc; induction d as [|[k v] d IH]; simpl; intros acc Hnd Hacc.
  - symmetry; apply app_nil_r.
  - inversion Hnd as [|x l Hk Hnd']; subst.
    unfold not_None_items; simpl.
    destruct (is_not_None v).
    + rewrite IH; [|exact Hnd'|].
      * rewrite dict_set_fresh by (apply (Hacc (k, v)); left; reflexivity).
        rewrite <- app_assoc; reflexivity.
      * intros kv Hkv; rewrite dict_lookup_set.
        destruct (k == fst kv) eqn:E; [|apply Hacc; right; exact Hkv].
        apply pystr_eqb_eq in E; subst k.
        exfalso; apply Hk, in_map, Hkv.
    + apply IH; [exact Hnd'|].
      intros kv Hkv; apply Hacc; right; exact Hkv.
Qed.

(** On a dict with pairwise distinct keys the comprehension keeps the
    items that are not [None], in their order. *)
Lemma dict_not_None_items_filter (d : dict) :
  NoDup (map fst d) -> dict_not_None_items d = not_None_items d.
Proof.
  intros H; unfold dict_not_None_items.
  rewrite comprehension_from; [reflexivity | exact H | reflexivity].
Qed.

Lemma dict_remove_filter (d : dict) (k : pystr) :
  dict_remove d k = without_key d k.
Proof.
  induction d as [|[k0 v0] d IH]; simpl; [reflexivity|].
  unfold without_key; simpl.
  destruct (k0 == k); simpl; [exact IH | rewrite IH; reflexivity].
Qed.

Lemma NoDup_keys_filter (p : pystr * value -> bool) (d : dict) :
  NoDup (map fst d) -> NoDup (map fst (filter p d)).
Proof.
  induction d as [|kv d IH]; simpl; intros H; [constructor|].
  inversion H as [|x l Hk Hnd]; subst.
  destruct (p kv); simpl; [|apply IH, Hnd].
  constructor; [|apply IH, Hnd].
  intros Hin; apply Hk.
  apply in_map_iff in Hin as [kv' [E Hin]].
  apply filter_In in Hin as [Hin _].
  rewrite <- E; apply in_map, Hin.
Qed.

(** ** The guarded copies, key by key *)

Lemma copied_lookup (args : dict) (f k : pystr) (d : dict) :
  dict_lookup (copied_if_truthy args f d) k
  = if (f == k) && truthy (dict_get args f) then Some (dict_get args f)
    else dict_lookup d k.
Proof.
  unfold copied_if_truthy.
  destruct (truthy (dict_get args f)).
  - rewrite dict_lookup_set, andb_true_r; reflexivity.
  - rewrite andb_false_r; reflexivity.
Qed.

Lemma flagged_lookup (args : dict) (f k : pystr) (d : dict) :
  dict_lookup (flagged_if_truthy args f d) k
  = if (f == k) && truthy (dict_get args f) then Some (VStr (str "true"))
    else dict_lookup d k.
Proof.
  unfold flagged_if_truthy.
  destruct (truthy (dict_get args f)).
  - rewrite dict_lookup_set, andb_true_r; reflexivity.
  - rewrite andb_false_r; reflexivity.
Qed.

Lemma copied_fold_other (args : dict) (fields : list pystr) (d : dict)
  (k : pystr) :
  ~ In k fields ->
  dict_lookup (fold_left (fun s x => copied_if_truthy args x s) fields d) k
  = dict_lookup d k.
Proof.
  revert d; induction fields as [|f fields IH]; simpl; intros d Hk;
    [reflexivity|].
  rewrite IH by tauto; rewrite copied_lookup.
  destruct (f == k) eqn:E; [|reflexivity].
  apply pystr_eqb_eq in E; tauto.
Qed.

Lemma copied_fold_lookup (args : dict) (fields : list pystr) (d : dict)
  (k : pystr) :
  NoDup fields -> In k fields ->
  dict_lookup (fold_left (fun s x => copied_if_truthy args x s) fields d) k
  = if truthy (dict_get args k) then Some (dict_get args k)
    else dict_lookup d k.
Proof.
  revert d; induction fields as [|f fields IH]; simpl; intros d Hnd Hin;
    [contradiction|].
  inversion Hnd as [|x l Hf Hnd']; subst.
  destruct Hin as [->|Hin].
  - rewrite copied_fold_other by exact Hf.
    rewrite copied_lookup, pystr_eqb_refl; reflexivity.
  - rewrite IH by assumption.
    destruct (truthy (dict_get args k)); [reflexivity|].
    rewrite copied_lookup.
    destruct (f == k) eqn:E; [|reflexivity].
    apply pystr_eqb_eq in E; subst f; contradiction.
Qed.

(** In the branch of a given name every test of the chain is decided. *)
Ltac decide_names :=
  repeat match goal with
         | |- context [str ?a == str ?b] =>
             let r := eval vm_compute in (str a == str b) in
             change (str a == str b) with r
         end;
  cbv iota.

(** Split membership in a table into its rows. *)
Ltac each_row H :=
  cbn [In] in H;
  repeat (destruct H as [H|H]; [injection H as <-; intros; subst|]);
  [..|contradiction].

(** The transport call at the end of a branch, as one [invoke]. *)
Ltac to_invoke :=
  match goal with
  | |- context [bind (tv_get ?p ?q) ?k] =>
      change (bind (tv_get p q) k) with (invoke (Get p q))
  | |- context [bind (tv_post ?p ?b) ?k] =>
      change (bind (tv_post p b) k) with (invoke (Post p b))
  | |- context [bind (tv_put ?p ?b) ?k] =>
      change (bind (tv_put p b) k) with (invoke (Put p b))
  | |- context [bind (tv_delete ?p) ?k] =>
      change (bind (tv_delete p) k) with (invoke (Delete p))
  end.

Ltac distinct_names :=
  repeat (constructor;
          [let H := fresh in
           intros H; vm_compute in H;
           repeat (destruct H as [H|H]; [discriminate H|]); exact H|]);
  constructor.

Section Routes.

Variable isprintable : N -> bool.

(** X1: the four tools without arguments make one GET to their fixed
    path, with no query and no body, whatever arguments they are given. *)
Theorem plain_tool_request (name path : pystr) (arguments : option dict)
  (w : World) (token : pystr) :
  In (name, path) plain_tools ->
  credential w = Some token ->
  snd (handle_call_tool isprintable name arguments w [])
  = [httpx.mkRequest httpx.GET (BASE_URL ++ path) (auth_headers token)
       None None 30].
Proof.
  intros Hrow Htoken; unfold plain_tools in Hrow.
  each_row Hrow; rewrite handle_call_tool_unfold; unfold call_tool;
    decide_names;
    match goal with
    | |- context [tv_get ?p ?q] =>
        change (bind (tv_get p q) (fun data => ret (ok data)))
          with (invoke (Get p q))
    end;
    rewrite try_invoke_run, Htoken; destruct (network w _); reflexivity.
Qed.

(** X2: the eight tools that read or delete one entity make one request
    with the tool's verb to the tool's path followed by the identifier as
    the f-string formats it, with no query and no body; the other
    arguments are ignored. *)
Theorem entity_tool_request (name key : pystr) (method : httpx.Method)
  (prefix : pystr) (args : dict) (id : value) (w : World) (token : pystr) :
  In (name, key, method, prefix) entity_tools ->
  dict_lookup args key = Some id ->
  credential w = Some token ->
  snd (handle_call_tool isprintable name (Some args) w [])
  = [httpx.mkRequest method (BASE_URL ++ prefix ++ fstr isprintable id)
       (auth_headers token) None None 30].
Proof.
  intros Hrow Hid Htoken; unfold entity_tools in Hrow.
  each_row Hrow;
    rewrite handle_call_tool_unfold, dict_or_empty_Some; unfold call_tool;
    decide_names; unfold getitem; rewrite Hid, bind_ret_l; to_invoke;
    rewrite try_invoke_run, Htoken; destruct (network w _); reflexivity.
Qed.

(** X3: the five update tools, on arguments with pairwise distinct keys,
    make one PUT to the tool's path followed by the identifier; the JSON
    body is the arguments other than the identifier whose value is not
    [None], in their order, and so never holds the identifier. *)
Theorem update_tool_request (name key prefix : pystr) (args : dict)
  (id : value) (w : World) (token : pystr) :
  In (name, key, prefix) update_tools ->
  NoDup (map fst args) ->
  dict_lookup args key = Some id ->
  credential w = Some token ->
  snd (handle_call_tool isprintable name (Some args) w [])
  = [httpx.mkRequest httpx.PUT (BASE_URL ++ prefix ++ fstr isprintable id)
       (auth_headers token) None
       (Some (not_None_items (without_key args key))) 30]
  /\ dict_contains (not_None_items (without_key args key)) key = false.
Proof.
  intros Hrow Hnd Hid Htoken.
  assert (Hbody : dict_or_empty
                    (Some (dict_not_None_items (dict_remove args key)))
                  = not_None_items (without_key args key)).
  { rewrite dict_or_empty_Some, dict_remove_filter.
    apply dict_not_None_items_filter, NoDup_keys_filter, Hnd. }
  split.
  - unfold update_tools in Hrow.
    each_row Hrow;
      rewrite handle_call_tool_unfold, dict_or_empty_Some; unfold call_tool;
      decide_names; unfold dict_pop; rewrite Hid, bind_ret_l; cbv beta iota;
      to_invoke; rewrite try_invoke_run, Htoken;
      destruct (network w _);
      cbn [snd app];
      unfold request_of, call_json, call_method, call_path, call_params;
      rewrite Hbody; reflexivity.
  - rewrite <- Hbody, dict_or_empty_Some.
    apply dict_contains_lookup, dict_lookup_not_None_items,
      dict_lookup_remove_same.
Qed.

(** X4: [update_account], [create_user], [create_session] and
    [create_meeting] read no argument by name: on any arguments with
    pairwise distinct keys, even without the required ones, they make one
    request whose JSON body is the arguments whose value is not [None],
    in their order (the empty object when there are none). *)
Theorem body_tool_request (name : pystr) (method : httpx.Method)
  (path : pystr) (arguments : option dict) (w : World) (token : pystr) :
  In (name, method, path) body_tools ->
  NoDup (map fst (dict_or_empty arguments)) ->
  credential w = Some token ->
  snd (handle_call_tool isprintable name arguments w [])
  = [httpx.mkRequest method (BASE_URL ++ path) (auth_headers token) None
       (Some (not_None_items (dict_or_empty arguments))) 30].
Proof.
  intros Hrow Hnd Htoken.
  assert (Hbody : dict_or_empty
                    (Some (dict_not_None_items (dict_or_empty arguments)))
                  = not_None_items (dict_or_empty arguments)).
  { rewrite dict_or_empty_Some; apply dict_not_None_items_filter, Hnd. }
  unfold body_tools in Hrow.
  each_row Hrow;
    rewrite handle_call_tool_unfold; unfold call_tool; decide_names;
    to_invoke; rewrite try_invoke_run, Htoken;
    destruct (network w _);
      cbn [snd app];
      unfold request_of, call_json, call_method, call_path, call_params;
    rewrite Hbody; reflexivity.
Qed.

Lemma filter_query_spec (args : dict) (fields : list pystr)
  (flag : option pystr) :
  NoDup fields ->
  (forall f, flag = Some f -> ~ In f fields) ->
  (forall k, In k fields ->
     dict_lookup (filter_query args fields flag) k
     = if truthy (dict_get args k) then Some (dict_get args k) else None)
  /\ (forall f, flag = Some f ->
        dict_lookup (filter_query args fields flag) f
        = if truthy (dict_get args f) then Some (VStr (str "true"))
          else None)
  /\ (forall k, dict_contains (filter_query args fields flag) k = true ->
        In k fields \/ flag = Some k).
Proof.
  intros Hnd Hflag; unfold filter_query; repeat split.
  - intros k Hk; destruct flag as [f|].
    + rewrite flagged_lookup.
      destruct (f == k) eqn:E.
      * apply pystr_eqb_eq in E; subst f.
        exfalso; exact (Hflag k eq_refl Hk).
      * simpl; rewrite copied_fold_lookup by assumption; reflexivity.
    + rewrite copied_fold_lookup by assumption; reflexivity.
  - intros f ->; rewrite flagged_lookup, pystr_eqb_refl; simpl.
    rewrite copied_fold_other by (apply Hflag; reflexivity).
    reflexivity.
  - intros k Hk; unfold dict_contains in Hk.
    destruct (mem k fields) eqn:M; [left; apply mem_In, M|].
    assert (Hnot : ~ In k fields)
      by (intros Hin; apply mem_In in Hin; congruence).
    destruct flag as [f|].
    + rewrite flagged_lookup, copied_fold_other in Hk by exact Hnot.
      destruct (f == k) eqn:E; [|discriminate Hk].
      apply pystr_eqb_eq in E; subst f; right; reflexivity.
    + rewrite copied_fold_other in Hk by exact Hnot; discriminate Hk.
Qed.

(** X5: the four list tools make one GET to their path.  Under each
    filter name the query holds the argument when it is truthy and
    nothing otherwise (so [None], [False], [0] and the empty string are
    all left out); the flag [full_list] is sent as the string ["true"]
    when truthy and left out otherwise; there are no other keys, and an
    empty query is sent as no query. *)
Theorem filter_tool_request (name path : pystr) (fields : list pystr)
  (flag : option pystr) (arguments : option dict) (w : World)
  (token : pystr) :
  In (name, path, fields, flag) filter_tools ->
  credential w = Some token ->
  exists query : dict,
    snd (handle_call_tool isprintable name arguments w [])
    = [httpx.mkRequest httpx.GET (BASE_URL ++ path) (auth_headers token)
         (dict_or_None query) None 30]
    /\ (forall k, In k fields ->
          dict_lookup query k
          = if truthy (dict_get (dict_or_empty arguments) k)
            then Some (dict_get (dict_or_empty arguments) k) else None)
    /\ (forall f, flag = Some f ->
          dict_lookup query f
          = if truthy (dict_get (dict_or_empty arguments) f)
            then Some (VStr (str "true")) else None)
    /\ (forall k, dict_contains query k = true ->
          In k fields \/ flag = Some k).
Proof.
  intros Hrow Htoken.
  exists (filter_query (dict_or_empty arguments) fields flag).
  split.
  - unfold filter_tools in Hrow.
    each_row Hrow;
      rewrite handle_call_tool_unfold; unfold call_tool; decide_names;
      run_pure; to_invoke; rewrite try_invoke_run, Htoken;
      destruct (network w _); reflexivity.
  - clear Htoken; unfold filter_tools in Hrow.
    each_row Hrow;
      (apply filter_query_spec;
       [ distinct_names
       | intros f Hf; try discriminate Hf; injection Hf as <-;
         intros H; vm_compute in H;
         repeat (destruct H as [H|H]; [discriminate H|]); exact H ]).
Qed.

(** X6: [create_group] sends the value of [name] as it is (a [None]
    included), and [policy_id] after it only when it is truthy. *)
Theorem create_group_request (args : dict) (name_ : value) (w : World)
  (token : pystr) :
  dict_lookup args (str "name") = Some name_ ->
  credential w = Some token ->
  snd (handle_call_tool isprintable (str "create_group") (Some args) w [])
  = [httpx.mkRequest httpx.POST (BASE_URL ++ str "/groups")
       (auth_headers token) None
       (Some (if truthy (dict_get args (str "policy_id"))
              then [(str "name", name_);
                    (str "policy_id", dict_get args (str "policy_id"))]
              else [(str "name", name_)]))
       30].
Proof.
  intros Hname Htoken.
  rewrite handle_call_tool_unfold, dict_or_empty_Some,
    call_tool_create_group.
  unfold getitem; rewrite Hname, bind_ret_l, try_invoke_run, Htoken.
  unfold copied_if_truthy.
  destruct (network w _); destruct (truthy _); reflexivity.
Qed.

(** X7: [share_group] reads [group_id], then [users]; the first one that
    is missing raises [KeyError] before any request.  With both present it
    makes one POST to [/groups/<group_id>/share_group] whose body is
    exactly [{"users": <users>}]. *)
Theorem share_group_request (args : dict) (w : World) :
  let run :=
    handle_call_tool isprintable (str "share_group") (Some args) w [] in
  match dict_lookup args (str "group_id"), dict_lookup args (str "users") with
  | None, _ => run = (inl (KeyError (str "group_id")), [])
  | Some _, None => run = (inl (KeyError (str "users")), [])
  | Some group_id, Some users =>
      forall token,
        credential w = Some token ->
        snd run
        = [httpx.mkRequest httpx.POST
             (BASE_URL ++ str "/groups/" ++ fstr isprintable group_id
              ++ str "/share_group")
             (auth_headers token) None (Some [(str "users", users)]) 30]
  end.
Proof.
  intros run; subst run.
  rewrite handle_call_tool_unfold, dict_or_empty_Some.
  unfold call_tool; decide_names; unfold getitem.
  destruct (dict_lookup args (str "group_id")) as [group_id|];
    [|reflexivity].
  destruct (dict_lookup args (str "users")) as [users|]; [|reflexivity].
  intros token Htoken; rewrite !bind_ret_l; to_invoke.
  rewrite try_invoke_run, Htoken; destruct (network w _); reflexivity.
Qed.

(** X8: for the sixteen tools that read an argument by name, the absence
    of the first one they read raises [KeyError] for it past the handler,
    with no request made, whether or not a token is configured. *)
Theorem missing_first_key_raises (name key : pystr)
  (arguments : option dict) (w : World) :
  In (name, key) first_key ->
  dict_contains (dict_or_empty arguments) key = false ->
  handle_call_tool isprintable name arguments w []
  = (inl (KeyError key), []).
Proof.
  intros Hrow Habsent; apply dict_contains_lookup in Habsent.
  unfold first_key, entity_tools, update_tools in Hrow.
  cbn [map app fst snd] in Hrow.
  each_row Hrow;
    rewrite handle_call_tool_unfold; unfold call_tool; decide_names;
    unfold getitem, dict_pop; rewrite Habsent; reflexivity.
Qed.

(** ** What comes back *)

(** The one request of an invocation and the call it belongs to. *)
Lemma answered_invocation (name : pystr) (arguments : option dict)
  (w : World) (req : httpx.Request) (r : httpx.Response) :
  snd (handle_call_tool isprintable name arguments w []) = [req] ->
  network w req = httpx.Responded r ->
  exists c,
    httpx.method req = call_method c
    /\ fst (handle_call_tool isprintable name arguments w [])
       = match received c r with
         | inr data => inr (ok data)
         | inl e => caught e
         end.
Proof.
  intros Hlog Hnet.
  destruct (handle_call_tool_cases isprintable name arguments w [])
    as [[k [_ [_ E]]] | [[c [_ [_ E]]] | [_ E]]]; rewrite E in *; clear E;
    try discriminate Hlog.
  exists c; rewrite try_invoke_run in *.
  destruct (credential w) as [token|]; [|discriminate Hlog].
  destruct (network w (request_of token c)) as [r'|] eqn:Hnet';
    simpl in Hlog; injection Hlog as <-; rewrite Hnet' in Hnet;
    [|discriminate Hnet].
  injection Hnet as ->; split; reflexivity.
Qed.

(** X9: when the request of an invocation is answered with a status
    outside 200..299, the invocation returns the envelope
    [{"error": "TeamViewer API error <status>", "detail": <body>}]
    (indented) with the body text of the answer unchanged; nothing is
    raised and the body is not parsed. *)
Theorem upstream_error_envelope (name : pystr) (arguments : option dict)
  (w : World) (req : httpx.Request) (r : httpx.Response) :
  snd (handle_call_tool isprintable name arguments w []) = [req] ->
  network w req = httpx.Responded r ->
  httpx.is_success r = false ->
  fst (handle_call_tool isprintable name arguments w [])
  = inr [types.mkTextContent (str "text")
           (json.dumps
              (VDict [(str "error",
                       VStr (str "TeamViewer API error "
                             ++ int_str (httpx.status_code r)));
                      (str "detail", VStr (httpx.text r))])
              (Some 2%nat))].
Proof.
  intros Hlog Hnet Hstatus.
  destruct (answered_invocation _ _ _ Hlog Hnet) as [c [_ ->]].
  unfold received; rewrite Hstatus; reflexivity.
Qed.

(** X10: when the request is answered with a 2xx status and a body that
    decodes to [data] (a 204 answer to a DELETE apart), the invocation
    returns [data] serialized with [indent=2] as its one text item. *)
Theorem decoded_body_envelope (name : pystr) (arguments : option dict)
  (w : World) (req : httpx.Request) (r : httpx.Response) (data : value) :
  snd (handle_call_tool isprintable name arguments w []) = [req] ->
  network w req = httpx.Responded r ->
  httpx.is_success r = true ->
  httpx.json_result r = httpx.Decoded data ->
  ~ (httpx.method req = httpx.DELETE /\ httpx.status_code r = 204%Z) ->
  fst (handle_call_tool isprintable name arguments w [])
  = inr [types.mkTextContent (str "text") (json.dumps data (Some 2%nat))].
Proof.
  intros Hlog Hnet Hstatus Hjson Hnot.
  destruct (answered_invocation _ _ _ Hlog Hnet) as [c [Hm ->]].
  unfold received, decoded; rewrite Hstatus, Hjson.
  destruct c; try reflexivity.
  destruct (httpx.status_code r =? 204)%Z eqn:S; [|reflexivity].
  exfalso; apply Hnot; split; [exact Hm | apply Z.eqb_eq, S].
Qed.

(** X11: when a DELETE is answered with status 204, the invocation
    returns [{"success": true}] whatever the body is; the body is not
    parsed. *)
Theorem delete_no_content_envelope (name : pystr)
  (arguments : option dict) (w : World) (req : httpx.Request)
  (r : httpx.Response) :
  snd (handle_call_tool isprintable name arguments w []) = [req] ->
  httpx.method req = httpx.DELETE ->
  network w req = httpx.Responded r ->
  httpx.status_code r = 204%Z ->
  fst (handle_call_tool isprintable name arguments w [])
  = inr [types.mkTextContent (str "text")
           (json.dumps (VDict [(str "success", VBool true)])
                       (Some 2%nat))].
Proof.
  intros Hlog Hmethod Hnet Hstatus.
  destruct (answered_invocation _ _ _ Hlog Hnet) as [c [Hm ->]].
  rewrite Hmethod in Hm.
  unfold received, httpx.is_success; rewrite Hstatus.
  destruct c; try discriminate Hm; reflexivity.
Qed.

(** X12: every request an invocation makes goes to a path under
    [BASE_URL], carries [Authorization: Bearer <token>] with the token of
    the environment and [Content-Type: application/json] as its only
    headers, and has the 30 second time-out; in particular no request is
    made without a token. *)
Theorem request_is_authorized (name : pystr) (arguments : option dict)
  (w : World) (req : httpx.Request) :
  In req (snd (handle_call_tool isprintable name arguments w [])) ->
  exists token path,
    getenv w (str "TEAMVIEWER_API_TOKEN") = Some token
    /\ token <> []
    /\ httpx.headers req
       = [(str "Authorization", str "Bearer " ++ token);
          (str "Content-Type", str "application/json")]
    /\ httpx.url req = BASE_URL ++ path
    /\ httpx.timeout req = 30%Z.
Proof.
  intros Hreq.
  destruct (handle_call_tool_cases isprintable name arguments w [])
    as [[k [_ [_ E]]] | [[c [_ [_ E]]] | [_ E]]]; rewrite E in Hreq;
    clear E; try (destruct Hreq; fail).
  apply try_invoke_requests in Hreq as [token [Htoken ->]].
  exists token, (call_path c).
  unfold credential in Htoken.
  destruct (getenv w (str "TEAMVIEWER_API_TOKEN")) as [[|x token']|];
    try discriminate Htoken.
  injection Htoken as <-.
  repeat split; discriminate.
Qed.

(** X13: with a token configured, a tool of the catalog either raises
    [KeyError] for a required argument that is absent, before any
    request, or makes exactly one request. *)
Theorem catalog_tool_reaches_api (t : types.Tool)
  (arguments : option dict) (w : World) (token : pystr) :
  In t TOOLS ->
  credential w = Some token ->
  (exists k,
      handle_call_tool isprintable (types.name t) arguments w []
      = (inl (KeyError k), [])
      /\ In k (types.required (types.inputSchema t))
      /\ dict_contains (dict_or_empty arguments) k = false)
  \/ (exists req,
         snd (handle_call_tool isprintable (types.name t) arguments w [])
         = [req]).
Proof.
  intros Ht Htoken.
  destruct (handle_call_tool_cases isprintable (types.name t) arguments w [])
    as [[k [Hk [Hl E]]] | [[c [_ [_ E]]] | [Hu E]]]; rewrite E; clear E.
  - left; exists k; repeat split.
    + rewrite (required_of_tool Ht) in Hk; apply mem_In, Hk.
    + apply dict_contains_lookup, Hl.
  - right; rewrite try_invoke_run, Htoken.
    destruct (network w _); eexists; reflexivity.
  - rewrite (catalog_mem Ht) in Hu; discriminate Hu.
Qed.

End Routes.

(* ===================================================================== *)
(** * The text of an envelope *)
(* ===================================================================== *)

(** Induction on values through the lists they nest in. *)
Section ValueInduction.

Variable P : value -> Prop.
Hypothesis P_None : P VNone.
Hypothesis P_Bool : forall b, P (VBool b).
Hypothesis P_Int : forall n, P (VInt n).
Hypothesis P_Str : forall s, P (VStr s).
Hypothesis P_List : forall xs, Forall P xs -> P (VList xs).
Hypothesis P_Dict :
  forall items, Forall (fun kv => P (snd kv)) items -> P (VDict items).

Fixpoint value_nested_ind (v : value) : P v :=
  match v with
  | VNone => P_None
  | VBool b => P_Bool b
  | VInt n => P_Int n
  | VStr s => P_Str s
  | VList xs =>
      P_List
        ((fix all (l : list value) : Forall P l :=
            match l with
            | [] => Forall_nil P
            | x :: l' => Forall_cons x (value_nested_ind x) (all l')
            end) xs)
  | VDict items =>
      P_Dict
        ((fix all (l : list (pystr * value))
            : Forall (fun kv => P (snd kv)) l :=
            match l with
            | [] => Forall_nil _
            | kv :: l' =>
                Forall_cons kv (value_nested_ind (snd kv)) (all l')
            end) items)
  end.

End ValueInduction.

Definition all_plain (s : pystr) : Prop := forallb plain_ascii s = true.

Lemma all_plain_app (a b : pystr) :
  all_plain a -> all_plain b -> all_plain (a ++ b).
Proof.
  unfold all_plain; intros Ha Hb; rewrite forallb_app, Ha, Hb; reflexivity.
Qed.

Lemma all_plain_cons (c : N) (s : pystr) :
  plain_ascii c = true -> all_plain s -> all_plain (c :: s).
Proof. unfold all_plain; simpl; intros -> ->; reflexivity. Qed.

Lemma hex_digit_plain (d : N) : (d < 16)%N -> plain_ascii (hex_digit d) = true.
Proof.
  intros H; unfold hex_digit, plain_ascii.
  apply orb_true_iff; left; apply andb_true_iff.
  destruct (d <? 10)%N; split; apply N.leb_le; lia.
Qed.

Lemma hex4_plain (n : N) : all_plain (hex4 n).
Proof.
  unfold hex4;
    repeat (apply all_plain_cons;
            [apply hex_digit_plain, N.mod_upper_bound; discriminate|]).
  reflexivity.
Qed.

Lemma escape_char_plain (c : N) : all_plain (json.escape_char c).
Proof.
  unfold json.escape_char.
  repeat match goal with
         | |- all_plain (if ?b then _ else _) => destruct b eqn:?
         end;
    try reflexivity.
  - apply all_plain_cons; [|reflexivity].
    unfold plain_ascii; apply orb_true_iff; left; assumption.
  - apply (@all_plain_app (str "\u") _); [reflexivity | apply hex4_plain].
  - repeat (apply all_plain_app; try reflexivity; try apply hex4_plain).
Qed.

Lemma encode_basestring_plain (s : pystr) :
  all_plain (json.encode_basestring_ascii s).
Proof.
  unfold json.encode_basestring_ascii.
  apply (@all_plain_app [34%N] _); [reflexivity|].
  apply all_plain_app; [|reflexivity].
  induction s as [|c s IH]; simpl; [reflexivity|].
  apply all_plain_app; [apply escape_char_plain | exact IH].
Qed.

Lemma uint_str_plain (d : Decimal.uint) :
  all_plain (str (NilEmpty.string_of_uint d)).
Proof.
  induction d; simpl; try reflexivity; apply all_plain_cons;
    try reflexivity; assumption.
Qed.

Lemma nilzero_uint_plain (d : Decimal.uint) :
  all_plain (str (NilZero.string_of_uint d)).
Proof.
  destruct d; unfold NilZero.string_of_uint; try reflexivity;
    apply uint_str_plain.
Qed.

Lemma int_str_plain (n : Z) : all_plain (int_str n).
Proof.
  unfold int_str, NilZero.string_of_int.
  destruct (Z.to_int n) as [d|d]; [apply nilzero_uint_plain|].
  change (all_plain (45%N :: str (NilZero.string_of_uint d))).
  apply all_plain_cons; [reflexivity | apply nilzero_uint_plain].
Qed.

Lemma newline_indent_plain (indent : option nat) (level : nat) :
  all_plain (json.newline_indent indent level).
Proof.
  unfold json.newline_indent; destruct indent as [k|]; [|reflexivity].
  apply all_plain_cons; [reflexivity|].
  induction (k * level)%nat as [|m IH]; simpl; [reflexivity|].
  apply all_plain_cons; [reflexivity | exact IH].
Qed.

Lemma item_separator_plain (indent : option nat) :
  all_plain (json.item_separator indent).
Proof. destruct indent; reflexivity. Qed.

Create HintDb plain.

#[local] Hint Resolve all_plain_app encode_basestring_plain int_str_plain
  newline_indent_plain item_separator_plain : plain.

(** [json.dumps] with [ensure_ascii] emits printable ASCII and line feeds
    only, whatever the value holds. *)
Lemma iterencode_plain (o : value) :
  forall indent level, all_plain (json.iterencode indent level o).
Proof.
  induction o as [| b | n | s | xs IH | items IH] using value_nested_ind;
    intros indent level.
  - reflexivity.
  - destruct b; reflexivity.
  - apply int_str_plain.
  - apply encode_basestring_plain.
  - destruct IH as [|x xs Hx Hxs]; [reflexivity|].
    cbn [json.iterencode].
    apply (@all_plain_app (str "[") _); [reflexivity|].
    apply all_plain_app; [auto with plain|].
    apply all_plain_app; [apply Hx|].
    apply all_plain_app;
      [|apply all_plain_app; [auto with plain | reflexivity]].
    induction Hxs as [|y ys Hy Hys IHys]; [reflexivity|].
    repeat (apply all_plain_app; auto with plain).
  - destruct IH as [|[k x] kvs Hx Hkvs]; [reflexivity|].
    cbn [json.iterencode].
    apply (@all_plain_app (str "{") _); [reflexivity|].
    apply all_plain_app; [auto with plain|].
    apply all_plain_app; [auto with plain|].
    apply (@all_plain_app json.key_separator _); [reflexivity|].
    apply all_plain_app; [apply Hx|].
    apply all_plain_app;
      [|apply all_plain_app; [auto with plain | reflexivity]].
    induction Hkvs as [|[k' y] ys Hy Hys IHys]; [reflexivity|].
    repeat (apply all_plain_app; auto with plain).
    reflexivity.
Qed.

Lemma caught_envelope (e : Exn) (ts : list types.TextContent) :
  caught e = inr ts -> exists obj, ts = envelope obj (Some 2%nat).
Proof.
  destruct e; simpl; intros H; try discriminate H; injection H as <-;
    eexists; reflexivity.
Qed.

Section Envelopes.

Variable isprintable : N -> bool.

(** X14: whenever an invocation returns, it returns one item of type
    ["text"] whose text is printable ASCII and line feeds only: whatever
    the API sent and whatever the name was, every other character leaves
    as an escape. *)
Theorem envelope_text_is_ascii (name : pystr) (arguments : option dict)
  (w : World) (ts : list types.TextContent) :
  fst (handle_call_tool isprintable name arguments w []) = inr ts ->
  exists text,
    ts = [types.mkTextContent (str "text") text]
    /\ forallb plain_ascii text = true.
Proof.
  intros Hrun.
  assert (Henv : exists obj indent, ts = envelope obj indent).
  { destruct (handle_call_tool_cases isprintable name arguments w [])
      as [[k [_ [_ E]]] | [[c [_ [_ E]]] | [_ E]]]; rewrite E in Hrun;
      clear E.
    - discriminate Hrun.
    - rewrite try_invoke_run in Hrun.
      destruct (credential w) as [token|].
      2: { injection Hrun as <-; eexists; eexists; reflexivity. }
      destruct (network w _) as [r|]; [|discriminate Hrun].
      simpl in Hrun; destruct (received c r) as [e|data].
      + destruct (caught_envelope _ Hrun) as [obj ->].
        eexists; eexists; reflexivity.
      + injection Hrun as <-; eexists; eexists; reflexivity.
    - injection Hrun as <-; eexists; eexists; reflexivity. }
  destruct Henv as [obj [indent ->]].
  eexists; split; [reflexivity | apply iterencode_plain].
Qed.

End Envelopes.

(* ===================================================================== *)
(** * The catalog *)
(* ===================================================================== *)

(** X15: [handle_list_tools] returns the catalog without a request and
    without a token.  The catalog names are pairwise distinct, so a name
    denotes one descriptor, and every argument a descriptor requires is
    one of its declared properties. *)
Theorem catalog_is_well_formed :
  (forall w log, handle_list_tools w log = (inr TOOLS, log))
  /\ NoDup (map types.name TOOLS)
  /\ (forall t k, In t TOOLS ->
                  In k (types.required (types.inputSchema t)) ->
                  In k (map fst (types.properties (types.inputSchema t)))).
Proof.
  split; [reflexivity|]; split.
  - unfold TOOLS; cbn [map types.name tool]; distinct_names.
  - intros t k Ht; unfold TOOLS in Ht; cbn [In] in Ht.
    repeat (destruct Ht as [Ht|Ht];
            [subst t; intros Hk; vm_compute in Hk |- *; tauto|]).
    contradiction.
Qed.

(* ===================================================================== *)
(** * Instances of the route and envelope properties *)
(* ===================================================================== *)

(** X1, an instance: [ping] with a stray argument. *)
Lemma plain_tool_request_witness :
  snd (handle_call_tool latin1_isprintable (str "ping")
         (Some [(str "verbose", VBool true)]) (answering response_200) [])
  = [httpx.mkRequest httpx.GET (BASE_URL ++ str "/ping")
       (auth_headers (str "secret")) None None 30].
Proof.
  apply (@plain_tool_request latin1_isprintable (str "ping") (str "/ping")
           (Some [(str "verbose", VBool true)]) (answering response_200)
           (str "secret")).
  - left; reflexivity.
  - reflexivity.
Defined.

(** X2, an instance: [delete_device] of [d42]. *)
Lemma entity_tool_request_witness :
  snd (handle_call_tool latin1_isprintable (str "delete_device")
         (Some [(str "device_id", VStr (str "d42"))])
         (answering response_204) [])
  = [httpx.mkRequest httpx.DELETE (BASE_URL ++ str "/devices/d42")
       (auth_headers (str "secret")) None None 30].
Proof.
  apply (@entity_tool_request latin1_isprintable (str "delete_device")
           (str "device_id") httpx.DELETE (str "/devices/")
           [(str "device_id", VStr (str "d42"))] (VStr (str "d42"))
           (answering response_204) (str "secret")).
  - right; left; reflexivity.
  - reflexivity.
  - reflexivity.
Defined.

(** X3, an instance: [update_device] with an alias, and a description that
    is [None]. *)
Lemma update_tool_request_witness :
  snd (handle_call_tool latin1_isprintable (str "update_device")
         (Some [(str "alias", VStr (str "lab"));
                (str "device_id", VStr (str "d42"));
                (str "description", VNone)])
         (answering response_204) [])
  = [httpx.mkRequest httpx.PUT (BASE_URL ++ str "/devices/d42")
       (auth_headers (str "secret")) None
       (Some [(str "alias", VStr (str "lab"))]) 30].
Proof.
  apply (@update_tool_request latin1_isprintable (str "update_device")
           (str "device_id") (str "/devices/")
           [(str "alias", VStr (str "lab"));
            (str "device_id", VStr (str "d42"));
            (str "description", VNone)]
           (VStr (str "d42")) (answering response_204) (str "secret")).
  - left; reflexivity.
  - distinct_names.
  - reflexivity.
  - reflexivity.
Defined.

(** X4, an instance: [create_user] without its required arguments. *)
Lemma body_tool_request_witness :
  snd (handle_call_tool latin1_isprintable (str "create_user")
         (Some [(str "language", VStr (str "en")); (str "name", VNone)])
         (answering response_200) [])
  = [httpx.mkRequest httpx.POST (BASE_URL ++ str "/users")
       (auth_headers (str "secret")) None
       (Some [(str "language", VStr (str "en"))]) 30].
Proof.
  apply (@body_tool_request latin1_isprintable (str "create_user")
           httpx.POST (str "/users")
           (Some [(str "language", VStr (str "en")); (str "name", VNone)])
           (answering response_200) (str "secret")).
  - right; left; reflexivity.
  - distinct_names.
  - reflexivity.
Defined.

(** X5, an instance: [list_devices] with a group, an empty state and the
    flag set. *)
Lemma filter_tool_request_witness :
  exists query : dict,
    snd (handle_call_tool latin1_isprintable (str "list_devices")
           (Some [(str "groupid", VStr (str "g1"));
                  (str "online_state", VStr []);
                  (str "full_list", VBool true)])
           (answering response_200) [])
    = [httpx.mkRequest httpx.GET (BASE_URL ++ str "/devices")
         (auth_headers (str "secret")) (dict_or_None query) None 30]
    /\ dict_lookup query (str "groupid") = Some (VStr (str "g1"))
    /\ dict_lookup query (str "online_state") = None
    /\ dict_lookup query (str "full_list") = Some (VStr (str "true")).
Proof.
  destruct (@filter_tool_request latin1_isprintable (str "list_devices")
              (str "/devices") [str "groupid"; str "online_state"]
              (Some (str "full_list"))
              (Some [(str "groupid", VStr (str "g1"));
                     (str "online_state", VStr []);
                     (str "full_list", VBool true)])
              (answering response_200) (str "secret"))
    as [query [Hreq [Hfields [Hflag _]]]].
  - left; reflexivity.
  - reflexivity.
  - exists query; split; [exact Hreq|]; repeat split.
    + apply (Hfields (str "groupid")); left; reflexivity.
    + apply (Hfields (str "online_state")); right; left; reflexivity.
    + apply (Hflag (str "full_list")); reflexivity.
Defined.

(** X6, an instance: [create_group] with an empty [policy_id]. *)
Lemma create_group_request_witness :
  snd (handle_call_tool latin1_isprintable (str "create_group")
         (Some [(str "name", VStr (str "Lab")); (str "policy_id", VStr [])])
         (answering response_200) [])
  = [httpx.mkRequest httpx.POST (BASE_URL ++ str "/groups")
       (auth_headers (str "secret")) None
       (Some [(str "name", VStr (str "Lab"))]) 30].
Proof.
  apply (@create_group_request latin1_isprintable
           [(str "name", VStr (str "Lab")); (str "policy_id", VStr [])]
           (VStr (str "Lab")) (answering response_200) (str "secret")).
  - reflexivity.
  - reflexivity.
Defined.

(** X7, an instance: [share_group] with both arguments. *)
Lemma share_group_request_witness :
  snd (handle_call_tool latin1_isprintable (str "share_group")
         (Some [(str "group_id", VStr (str "g1"));
                (str "users", VList [])])
         (answering response_200) [])
  = [httpx.mkRequest httpx.POST (BASE_URL ++ str "/groups/g1/share_group")
       (auth_headers (str "secret")) None
       (Some [(str "users", VList [])]) 30].
Proof.
  apply (@share_group_request latin1_isprintable
           [(str "group_id", VStr (str "g1")); (str "users", VList [])]
           (answering response_200) (str "secret")).
  reflexivity.
Defined.

(** X8, an instance: [update_user] without [user_id] and without a
    token. *)
Lemma missing_first_key_raises_witness :
  handle_call_tool latin1_isprintable (str "update_user")
    (Some [(str "name", VStr (str "Ann"))]) unconfigured []
  = (inl (KeyError (str "user_id")), []).
Proof.
  apply (@missing_first_key_raises latin1_isprintable (str "update_user")
           (str "user_id") (Some [(str "name", VStr (str "Ann"))])
           unconfigured).
  - do 10 right; left; reflexivity.
  - reflexivity.
Defined.

(** X9, an instance: [get_device] of [d999], answered 404. *)
Lemma upstream_error_envelope_witness :
  fst (handle_call_tool latin1_isprintable (str "get_device")
         (Some [(str "device_id", VStr (str "d999"))])
         (answering response_404) [])
  = inr [types.mkTextContent (str "text")
           (json.dumps
              (VDict [(str "error", VStr (str "TeamViewer API error 404"));
                      (str "detail", VStr (str "device not found"))])
              (Some 2%nat))].
Proof.
  eapply (@upstream_error_envelope latin1_isprintable (str "get_device")
            (Some [(str "device_id", VStr (str "d999"))])
            (answering response_404) _ response_404).
  - reflexivity.
  - reflexivity.
  - reflexivity.
Defined.

(** X10, an instance: [get_account] answered 200 with [{}]. *)
Lemma decoded_body_envelope_witness :
  fst (handle_call_tool latin1_isprintable (str "get_account") None
         (answering response_200) [])
  = inr [types.mkTextContent (str "text")
           (json.dumps (VDict []) (Some 2%nat))].
Proof.
  eapply (@decoded_body_envelope latin1_isprintable (str "get_account") None
            (answering response_200) _ response_200 (VDict [])).
  - reflexivity.
  - reflexivity.
  - reflexivity.
  - reflexivity.
  - intros [H _]; discriminate H.
Defined.

(** X11, an instance: [delete_meeting] answered 204. *)
Lemma delete_no_content_envelope_witness :
  fst (handle_call_tool latin1_isprintable (str "delete_meeting")
         (Some [(str "meeting_id", VStr (str "m7"))])
         (answering response_204) [])
  = inr [types.mkTextContent (str "text")
           (json.dumps (VDict [(str "success", VBool true)])
                       (Some 2%nat))].
Proof.
  eapply (@delete_no_content_envelope latin1_isprintable
            (str "delete_meeting")
            (Some [(str "meeting_id", VStr (str "m7"))])
            (answering response_204) _ response_204).
  - reflexivity.
  - reflexivity.
  - reflexivity.
  - reflexivity.
Defined.

(** X12, an instance: the request of [list_policies]. *)
Lemma request_is_authorized_witness :
  exists token path,
    getenv (answering response_200) (str "TEAMVIEWER_API_TOKEN")
    = Some token
    /\ token <> []
    /\ httpx.headers
         (httpx.mkRequest httpx.GET (BASE_URL ++ str "/teamviewerpolicies")
            (auth_headers (str "secret")) None None 30)
       = [(str "Authorization", str "Bearer " ++ token);
          (str "Content-Type", str "application/json")]
    /\ httpx.url
         (httpx.mkRequest httpx.GET (BASE_URL ++ str "/teamviewerpolicies")
            (auth_headers (str "secret")) None None 30)
       = BASE_URL ++ path
    /\ httpx.timeout
         (httpx.mkRequest httpx.GET (BASE_URL ++ str "/teamviewerpolicies")
            (auth_headers (str "secret")) None None 30)
       = 30%Z.
Proof.
  apply (@request_is_authorized latin1_isprintable (str "list_policies")
           None (answering response_200)).
  left; reflexivity.
Defined.

(** X13, an instance: [get_user] with its identifier makes one request. *)
Lemma catalog_tool_reaches_api_witness :
  (exists k,
      handle_call_tool latin1_isprintable (str "get_user")
        (Some [(str "user_id", VStr (str "u1"))]) (answering response_200) []
      = (inl (KeyError k), [])
      /\ In k [str "user_id"]
      /\ dict_contains [(str "user_id", VStr (str "u1"))] k = false)
  \/ (exists req,
         snd (handle_call_tool latin1_isprintable (str "get_user")
                (Some [(str "user_id", VStr (str "u1"))])
                (answering response_200) [])
         = [req]).
Proof.
  apply (@catalog_tool_reaches_api latin1_isprintable
           (nth 13 TOOLS (tool "" "" [] []))
           (Some [(str "user_id", VStr (str "u1"))])
           (answering response_200) (str "secret")).
  - apply nth_In; vm_compute; lia.
  - reflexivity.
Defined.

(** X14, an instance: the envelope of a missing token, whose message
    holds two arrows. *)
Lemma envelope_text_is_ascii_witness :
  exists text,
    envelope (error_object missing_token_message) (Some 2%nat)
    = [types.mkTextContent (str "text") text]
    /\ forallb plain_ascii text = true.
Proof.
  apply (@envelope_text_is_ascii latin1_isprintable (str "ping") None
           unconfigured).
  reflexivity.
Defined.

(** X15, an instance: [create_meeting] requires only declared
    properties. *)
Lemma catalog_is_well_formed_witness :
  In (str "start")
     (map fst (types.properties
                 (types.inputSchema (nth 22 TOOLS (tool "" "" [] []))))).
Proof.
  apply (proj2 (proj2 catalog_is_well_formed)
           (nth 22 TOOLS (tool "" "" [] [])) (str "start")).
  - apply nth_In; vm_compute; lia.
  - right; left; reflexivity.
Defined.
